(** * claude-virtual-api: the bridge to the command-line agent

    A shallow embedding of [src/claude_bridge.py] (class [ClaudeBridge]) and
    the properties of its model-name mapper, prompt formatter, non-streaming
    call and streaming generator.

    Conventions of the embedding.
    - A Python [str] is a [string]; [bytes] is a [list byte].
    - A Python object built by [json.loads] or by pydantic's [model_dump] is
      a [pyval]; a [dict] is an association list read by first match, which
      keeps the insertion order Python dicts have.
    - Code that may raise returns a [result]; the exception classes the
      bridge can meet are the constructors of [exn].
    - The interpreter's library ([bytes.decode], [json.loads], [str()] of a
      non-string object, the text of an exception) and the operating system
      ([asyncio.create_subprocess_exec], [uuid.uuid4]) are the fields of the
      class [PyRuntime]; every definition and theorem is stated for an
      arbitrary runtime.
    - The [print(..., file=sys.stderr)] log lines have no effect on any
      returned or yielded value and are left out.

    After the bridge come the request models of [src/models.py] and the
    endpoints of [src/server.py]: the ones that call the bridge, and the
    ones that keep the in-memory stores of batches and files. *)

From Stdlib Require Import Strings.String Strings.Ascii ZArith List Strings.Byte PrimFloat Lia.
From stdpp Require Import base option list strings gmap.

Local Open Scope string_scope.
Local Open Scope list_scope.
Local Open Scope Z_scope.
Set Warnings "-register-all".

(** ** Python values *)

Inductive pyval : Type :=
| PNone
| PBool (b : bool)
| PInt (n : Z)
| PFloat (f : float)
| PStr (s : string)
| PList (l : list pyval)
| PDict (d : list (string * pyval)).

Abbreviation pydict := (list (string * pyval)).

(** Exception classes, without their arguments; [exn_str] of the runtime
    gives [str(e)]. [OtherError] stands for any further class a subprocess
    spawn can raise ([PermissionError], [OSError], ...), told apart by a tag. *)
Inductive exn : Type :=
| FileNotFoundError
| AttributeError
| TypeError
| KeyError
| UnicodeDecodeError
| OtherError (tag : string).

Inductive result (A : Type) : Type :=
| Ok (a : A)
| Raise (e : exn).
Arguments Ok {A} a.
Arguments Raise {A} e.

Definition bind {A B : Type} (r : result A) (k : A -> result B) : result B :=
  match r with
  | Ok a => k a
  | Raise e => Raise e
  end.

Notation "x <- r ;; k" := (bind r (fun x => k))
  (at level 100, r at next level, right associativity).

(** [d[key]] when present. *)
Fixpoint dict_get (key : string) (d : pydict) : option pyval :=
  match d with
  | [] => None
  | (k, v) :: d' => if String.eqb k key then Some v else dict_get key d'
  end.

(** [d.get(key, dflt)] on a dict. *)
Definition dict_get_default (d : pydict) (key : string) (dflt : pyval) : pyval :=
  match dict_get key d with
  | Some v => v
  | None => dflt
  end.

(** [obj.get(key, dflt)] on any object: only a dict has the method. *)
Definition py_get (obj : pyval) (key : string) (dflt : pyval) : result pyval :=
  match obj with
  | PDict d => Ok (dict_get_default d key dflt)
  | _ => Raise AttributeError
  end.

(** [bool(v)]. *)
Definition truthy (v : pyval) : bool :=
  match v with
  | PNone => false
  | PBool b => b
  | PInt n => negb (n =? 0)
  | PFloat f => negb (PrimFloat.eqb f 0%float)
  | PStr s => negb (String.eqb s "")
  | PList l => match l with [] => false | _ => true end
  | PDict d => match d with [] => false | _ => true end
  end.

(** [v == s] for a string [s]. *)
Definition eq_str (v : pyval) (s : string) : bool :=
  match v with
  | PStr t => String.eqb t s
  | _ => false
  end.

(** ** The runtime *)

Record process : Type := {
  stdout_lines : list (list byte);  (* what [async for line in process.stdout] reads *)
  stderr : list byte;
  returncode : Z
}.

(** [process.communicate()]: all of stdout, all of stderr. *)
Definition communicate (p : process) : list byte * list byte :=
  (concat (stdout_lines p), stderr p).

Class PyRuntime : Type := {
  (* [b.decode()]; [None] is a [UnicodeDecodeError] *)
  bytes_decode : list byte -> option string;
  (* [json.loads(s)]; [None] is a [json.JSONDecodeError] *)
  json_loads : string -> option pyval;
  (* [str(v)] for an object that is not a string *)
  py_repr : pyval -> string;
  (* [str(e)] *)
  exn_str : exn -> string;
  (* [asyncio.create_subprocess_exec] applied to the argument list *)
  create_subprocess_exec : list string -> result process;
  (* [uuid.uuid4().hex] *)
  uuid4_hex : string
}.

(** ** Model name mapping *)

Definition MODEL_MAPPING : gmap string string :=
  list_to_map [
    ("claude-opus-4-5-20251101", "opus");
    ("claude-sonnet-4-5-20251101", "sonnet");
    ("claude-3-5-sonnet-20241022", "sonnet");
    ("claude-3-5-haiku-20241022", "haiku");
    ("claude-3-opus-20240229", "opus");
    ("claude-3-sonnet-20240229", "sonnet");
    ("claude-3-haiku-20240307", "haiku");
    ("opus", "opus");
    ("sonnet", "sonnet");
    ("haiku", "haiku")
  ].

Definition _map_model (model : string) : string :=
  default "sonnet" (MODEL_MAPPING !! model).

(** The canonical short names the command-line agent accepts. *)
Definition canonical_names : list string := ["opus"; "sonnet"; "haiku"].


(** ** Strings *)

(** The line feed, Python's ["\n"]. *)
Definition nl : string := String (ascii_of_nat 10) "".

(** [sep.join(l)] for a list of strings. *)
Definition join (sep : string) (l : list string) : string := String.concat sep l.

(** [sep.join(l)] for a list of objects: a [TypeError] unless every item is
    a string. *)
Fixpoint as_strings (l : list pyval) : result (list string) :=
  match l with
  | [] => Ok []
  | PStr s :: l' => ss <- as_strings l';; Ok (s :: ss)
  | _ :: _ => Raise TypeError
  end.

Definition py_join (sep : string) (l : list pyval) : result string :=
  ss <- as_strings l;; Ok (join sep ss).

(** [c.isspace()] for the characters a [string] holds (code points below
    256): tab to carriage return, the separators 0x1c..0x1f, the space,
    next line (0x85) and the no-break space (0xa0). *)
Definition is_space (c : ascii) : bool :=
  let n := nat_of_ascii c in
  ((9 <=? n) && (n <=? 13) || (28 <=? n) && (n <=? 32) || (n =? 133) || (n =? 160))%nat.

Fixpoint lstrip (s : string) : string :=
  match s with
  | "" => ""
  | String c s' => if is_space c then lstrip s' else s
  end.

Fixpoint rstrip (s : string) : string :=
  match s with
  | "" => ""
  | String c s' =>
      match rstrip s' with
      | "" => if is_space c then "" else String c ""
      | r => String c r
      end
  end.

(** [s.strip()]. *)
Definition strip (s : string) : string := rstrip (lstrip s).

(** [s[n:]]. *)
Fixpoint slice_from (n : nat) (s : string) : string :=
  match n, s with
  | O, _ => s
  | S n', String _ s' => slice_from n' s'
  | S _, "" => ""
  end.

(** [s[:n]]. *)
Definition slice_to (n : nat) (s : string) : string := substring 0 n s.

(** [s.startswith(p)]. *)
Definition startswith (s p : string) : bool := String.prefix p s.

(** [len(v)]: strings, lists and dicts have a length. *)
Definition py_len (v : pyval) : result Z :=
  match v with
  | PStr s => Ok (Z.of_nat (String.length s))
  | PList l => Ok (Z.of_nat (List.length l))
  | PDict d => Ok (Z.of_nat (List.length d))
  | _ => Raise TypeError
  end.

(** [v[0]]: the first item of a list, the first character of a string; a
    dict has string keys only, so the key [0] is missing. *)
Definition py_index0 (v : pyval) : result pyval :=
  match v with
  | PList (x :: _) => Ok x
  | PList [] => Raise (OtherError "IndexError")
  | PStr (String c _) => Ok (PStr (String c ""))
  | PStr "" => Raise (OtherError "IndexError")
  | PDict _ => Raise KeyError
  | _ => Raise TypeError
  end.

(** A loop [for a in l: s = step(s, a)] whose body may raise. *)
Fixpoint for_each {A S : Type} (step : S -> A -> result S) (l : list A) (s : S)
  : result S :=
  match l with
  | [] => Ok s
  | a :: l' => s' <- step s a;; for_each step l' s'
  end.

(** ** The bridge *)

Section Bridge.
Context `{RT : PyRuntime}.

(** [b.decode()]. *)
Definition decode (b : list byte) : result string :=
  match bytes_decode b with
  | Some s => Ok s
  | None => Raise UnicodeDecodeError
  end.

(** What an f-string writes for [{v}]. *)
Definition format_value (v : pyval) : string :=
  match v with
  | PStr s => s
  | _ => py_repr v
  end.

Definition _build_command (prompt output_format : string)
    (session_id model : option string) : list string :=
  let cmd := ["claude"; "-p"; prompt; "--output-format"; output_format] in
  let cmd :=
    match session_id with
    | Some sid => if String.eqb sid "" then cmd else cmd ++ ["--session-id"; sid]
    | None => cmd
    end in
  match model with
  | Some m => if String.eqb m "" then cmd else cmd ++ ["--model"; _map_model m]
  | None => cmd
  end.

(** The inner loop of the formatter: one pass over the blocks of a list
    content, appending to [text_parts]. *)
Definition collect_block (text_parts : list pyval) (block : pyval) : list pyval :=
  match block with
  | PStr _ => text_parts ++ [block]
  | PDict d =>
      if eq_str (dict_get_default d "type" PNone) "text"
      then text_parts ++ [dict_get_default d "text" (PStr "")]
      else text_parts
  | _ => text_parts
  end.

(** The content of a message as the formatter rebinds it: a list content
    becomes its text parts joined by line feeds. *)
Definition message_content (msg : pydict) : result pyval :=
  let content := dict_get_default msg "content" (PStr "") in
  match content with
  | PList blocks =>
      let text_parts := fold_left collect_block blocks [] in
      s <- py_join nl text_parts;; Ok (PStr s)
  | _ => Ok content
  end.

(** The body of the formatter's loop over the messages. *)
Definition format_message (parts : list string) (msg : pydict)
  : result (list string) :=
  let role := dict_get_default msg "role" (PStr "user") in
  content <- message_content msg;;
  if eq_str role "user" then
    Ok (parts ++ ["User: " +:+ format_value content])
  else if eq_str role "assistant" then
    Ok (parts ++ ["Assistant: " +:+ format_value content])
  else Ok parts.

Definition _format_messages_as_prompt (messages : list pydict)
    (system : option string) : result string :=
  let parts :=
    match system with
    | Some s => if String.eqb s "" then [] else ["[System: " +:+ s +:+ "]"]
    | None => []
    end in
  parts <- for_each format_message messages parts;;
  Ok (join (nl +:+ nl) parts).

(** *** Non-streaming call *)

Definition failure (message : string) : pyval :=
  PDict [("error", PBool true); ("message", PStr message)].

(** The body of the [try] of [send_message]. *)
Definition send_message_try (cmd : list string) : result pyval :=
  process <- create_subprocess_exec cmd;;
  let '(stdout, stderr) := communicate process in
  if negb (returncode process =? 0) then
    error_msg <- match stderr with
                 | [] => Ok "Unknown error"
                 | _ => decode stderr
                 end;;
    Ok (failure error_msg)
  else
    decoded <- decode stdout;;
    let output := strip decoded in
    match json_loads output with
    | Some result =>
        content <- py_get result "result" (PStr "");;
        session <- py_get result "session_id" PNone;;
        cost <- py_get result "total_cost_usd" (PInt 0);;
        duration <- py_get result "duration_ms" (PInt 0);;
        usage <- py_get result "usage" (PDict []);;
        Ok (PDict [("error", PBool false);
                   ("content", content);
                   ("session_id", session);
                   ("cost_usd", cost);
                   ("duration_ms", duration);
                   ("usage", usage)])
    | None =>
        Ok (PDict [("error", PBool false);
                   ("content", PStr output);
                   ("session_id", PNone)])
    end.

(** The two [except] clauses of [send_message]. *)
Definition send_message_except (e : exn) : pyval :=
  match e with
  | FileNotFoundError =>
      failure "Claude Code CLI not found. Please install it first."
  | _ => failure (exn_str e)
  end.

(** [send_message]: the prompt is formatted before the [try], so an
    exception of the formatter is the only one that leaves the call. *)
Definition send_message (messages : list pydict) (model : string)
    (system : option string) (max_tokens : Z) (session_id : option string)
  : result pyval :=
  prompt <- _format_messages_as_prompt messages system;;
  let cmd := _build_command prompt "json" session_id (Some model) in
  match send_message_try cmd with
  | Ok r => Ok r
  | Raise e => Ok (send_message_except e)
  end.

End Bridge.

(** *** Streaming call *)

(** What running the asynchronous generator does, in order: it yields an
    event to its consumer, awaits [process.wait()], or lets an exception
    leave the generator. *)
Inductive effect : Type :=
| Yield (event : pyval)
| ProcessWait
| Propagate (e : exn).

(** A piece of generator code: the effects it performs, then its value or
    the exception that ended it. *)
Definition gen (A : Type) : Type := (list effect * result A)%type.

Definition gret {A : Type} (a : A) : gen A := ([], Ok a).
Definition lift {A : Type} (r : result A) : gen A := ([], r).
Definition gyield (event : pyval) : gen unit := ([Yield event], Ok tt).
Definition gwait : gen unit := ([ProcessWait], Ok tt).

Definition gbind {A B : Type} (m : gen A) (k : A -> gen B) : gen B :=
  match m with
  | (effs, Ok a) => let '(effs', r) := k a in (effs ++ effs', r)
  | (effs, Raise e) => (effs, Raise e)
  end.

Notation "x <~ m ;; k" := (gbind m (fun x => k))
  (at level 100, m at next level, right associativity).

(** [try: m except Exception as e: handler(e)]. *)
Definition try_except (m : gen unit) (handler : exn -> gen unit) : gen unit :=
  match m with
  | (effs, Ok a) => (effs, Ok a)
  | (effs, Raise e) => let '(effs', r) := handler e in (effs ++ effs', r)
  end.

(** The whole run of a generator body driven to its end. *)
Definition run_gen (m : gen unit) : list effect :=
  match m with
  | (effs, Ok _) => effs
  | (effs, Raise e) => effs ++ [Propagate e]
  end.

(** A loop [async for a in l] whose body yields and may raise. *)
Fixpoint gfor_each {A S : Type} (step : S -> A -> gen S) (l : list A) (s : S)
  : gen S :=
  match l with
  | [] => gret s
  | a :: l' => s' <~ step s a;; gfor_each step l' s'
  end.

(** A consumer that takes [n] events and then abandons the generator: the
    generator stays suspended at its [n]-th [yield], and since the body has
    no [finally] and [except Exception] does not catch [GeneratorExit],
    nothing after that [yield] runs. With [n = 0] the body never starts. *)
Fixpoint abandon_after (n : nat) (trace : list effect) : list effect :=
  match trace with
  | [] => []
  | Yield event :: trace' =>
      match n with
      | O => []
      | S O => [Yield event]
      | S n' => Yield event :: abandon_after n' trace'
      end
  | eff :: trace' =>
      match n with
      | O => []
      | S _ => eff :: abandon_after n trace'
      end
  end.

(** The events a trace yields. *)
Fixpoint events (trace : list effect) : list pyval :=
  match trace with
  | [] => []
  | Yield event :: trace' => event :: events trace'
  | _ :: trace' => events trace'
  end.

Definition message_start (message_id model : string) : pyval :=
  PDict [("type", PStr "message_start");
         ("message", PDict [("id", PStr message_id);
                            ("type", PStr "message");
                            ("role", PStr "assistant");
                            ("content", PList []);
                            ("model", PStr model);
                            ("stop_reason", PNone);
                            ("stop_sequence", PNone);
                            ("usage", PDict [("input_tokens", PInt 0);
                                             ("output_tokens", PInt 0)])])].

Definition content_block_start : pyval :=
  PDict [("type", PStr "content_block_start");
         ("index", PInt 0);
         ("content_block", PDict [("type", PStr "text"); ("text", PStr "")])].

Definition content_block_delta (new_text : string) : pyval :=
  PDict [("type", PStr "content_block_delta");
         ("index", PInt 0);
         ("delta", PDict [("type", PStr "text_delta"); ("text", PStr new_text)])].

Definition content_block_stop : pyval :=
  PDict [("type", PStr "content_block_stop"); ("index", PInt 0)].

Definition message_delta (output_tokens : pyval) : pyval :=
  PDict [("type", PStr "message_delta");
         ("delta", PDict [("stop_reason", PStr "end_turn");
                          ("stop_sequence", PNone)]);
         ("usage", PDict [("output_tokens", output_tokens)])].

Definition message_stop : pyval := PDict [("type", PStr "message_stop")].

Definition error_event (message : string) : pyval :=
  PDict [("type", PStr "error");
         ("error", PDict [("type", PStr "api_error"); ("message", PStr message)])].

Section Stream.
Context `{RT : PyRuntime}.

(** Lines 213-224: the text of an assistant event against the buffer.
    Returns the new buffer. *)
Definition observe_content (buffer : string) (content : pyval) : gen string :=
  if truthy content then
    n <~ lift (py_len content);;
    if 0 <? n then
      first <~ lift (py_index0 content);;
      text <~ lift (py_get first "text" (PStr ""));;
      if truthy text && negb (eq_str text buffer) then
        match text with
        | PStr text =>
            let new_text :=
              if startswith text buffer
              then slice_from (String.length buffer) text
              else text in
            _ <~ (if negb (String.eqb new_text "")
                  then gyield (content_block_delta new_text)
                  else gret tt);;
            gret text
        | _ => lift (Raise AttributeError)  (* no [startswith] *)
        end
      else gret buffer
    else gret buffer
  else gret buffer.

(** The body of [async for line in process.stdout], on the accumulator
    [(buffer, output_tokens)]. *)
Definition stream_line (acc : string * pyval) (line : list byte)
  : gen (string * pyval) :=
  let '(buffer, output_tokens) := acc in
  decoded <~ lift (decode line);;
  let decoded := strip decoded in
  if String.eqb decoded "" then gret acc
  else
    match json_loads decoded with
    | None => gret acc
    | Some event =>
        event_type <~ lift (py_get event "type" (PStr ""));;
        if eq_str event_type "assistant" then
          msg <~ lift (py_get event "message" (PDict []));;
          content <~ lift (py_get msg "content" (PList []));;
          buffer <~ observe_content buffer content;;
          usage <~ lift (py_get msg "usage" (PDict []));;
          output_tokens <~ lift (py_get usage "output_tokens" output_tokens);;
          gret (buffer, output_tokens)
        else if eq_str event_type "result" then
          usage <~ lift (py_get event "usage" (PDict []));;
          output_tokens <~ lift (py_get usage "output_tokens" output_tokens);;
          gret (buffer, output_tokens)
        else gret acc
    end.

Definition stream_command (prompt model : string) (session_id : option string)
  : list string :=
  let mapped_model := _map_model model in
  let cmd := ["claude"; "-p"; prompt; "--output-format"; "stream-json"; "--verbose"] in
  let cmd :=
    match session_id with
    | Some sid => if String.eqb sid "" then cmd else cmd ++ ["--session-id"; sid]
    | None => cmd
    end in
  if String.eqb model "" then cmd else cmd ++ ["--model"; mapped_model].

(** The body of the [try] of [send_message_stream]. *)
Definition send_message_stream_try (cmd : list string) (model : string) : gen unit :=
  process <~ lift (create_subprocess_exec cmd);;
  let message_id := "msg_" +:+ slice_to 24 uuid4_hex in
  _ <~ gyield (message_start message_id model);;
  _ <~ gyield content_block_start;;
  acc <~ gfor_each stream_line (stdout_lines process) ("", PInt 0);;
  _ <~ gyield content_block_stop;;
  _ <~ gyield (message_delta (snd acc));;
  _ <~ gyield message_stop;;
  gwait.

(** The two [except] clauses of [send_message_stream]. *)
Definition send_message_stream_except (e : exn) : gen unit :=
  match e with
  | FileNotFoundError => gyield (error_event "Claude Code CLI not found")
  | _ => gyield (error_event (exn_str e))
  end.

(** [send_message_stream], driven to its end. *)
Definition send_message_stream (messages : list pydict) (model : string)
    (system : option string) (max_tokens : Z) (session_id : option string)
  : list effect :=
  match _format_messages_as_prompt messages system with
  | Raise e => [Propagate e]
  | Ok prompt =>
      let cmd := stream_command prompt model session_id in
      run_gen (try_except (send_message_stream_try cmd model)
                          send_message_stream_except)
  end.

End Stream.

(** *** How reading the output ends

    [send_message_stream] above is the run in which [async for] reads the
    lines [stdout_lines] and then meets the end of the output. Reading can
    end in two other ways, which [send_message_stream_reading] adds: the
    stream reader raises (a line longer than its limit of 64 KiB is a
    [ValueError] in place of a line), or no further line and no end of
    file ever comes (the subprocess stopped writing without closing its
    output, as it does when it blocks on its stderr, which line 173 pipes
    and the generator never reads). *)

Inductive reading_end : Type :=
| EndOfFile
| ReaderRaises (e : exn)
| NeverEnds.

(** A run of the generator: finished after these effects, or suspended for
    ever on its read after them. *)
Inductive run : Type :=
| Finished (trace : list effect)
| Suspended (trace : list effect).

Section StreamReading.
Context `{RT : PyRuntime}.

(** The loop over the lines that are read, then the end of the reading:
    its effects, and its state or exception, or nothing when the loop
    never ends. A line that raises ends the loop before the reading
    ends. *)
Definition stream_loop_reading (ending : reading_end) (lines : list (list byte))
  : list effect * option (result (string * pyval)) :=
  match gfor_each stream_line lines ("", PInt 0) with
  | (effs, Raise e) => (effs, Some (Raise e))
  | (effs, Ok acc) =>
      match ending with
      | EndOfFile => (effs, Some (Ok acc))
      | ReaderRaises e => (effs, Some (Raise e))
      | NeverEnds => (effs, None)
      end
  end.

Definition send_message_stream_reading (ending : reading_end)
    (messages : list pydict) (model : string) (system : option string)
    (max_tokens : Z) (session_id : option string) : run :=
  match _format_messages_as_prompt messages system with
  | Raise e => Finished [Propagate e]
  | Ok prompt =>
      let cmd := stream_command prompt model session_id in
      match create_subprocess_exec cmd with
      | Raise e => Finished (run_gen (send_message_stream_except e))
      | Ok process =>
          let message_id := "msg_" +:+ slice_to 24 uuid4_hex in
          let bootstrap := [Yield (message_start message_id model);
                            Yield content_block_start] in
          match stream_loop_reading ending (stdout_lines process) with
          | (effs, None) => Suspended (bootstrap ++ effs)
          | (effs, Some (Raise e)) =>
              Finished (bootstrap ++ effs ++ run_gen (send_message_stream_except e))
          | (effs, Some (Ok acc)) =>
              Finished (bootstrap ++ effs
                        ++ [Yield content_block_stop;
                            Yield (message_delta (snd acc));
                            Yield message_stop;
                            ProcessWait])
          end
      end
  end.

End StreamReading.

(** * The request models and the server

    The part of [src/models.py] and [src/server.py] that stands between an
    HTTP request and the bridge. A request that has passed pydantic's
    validation is a value of the types of [models]; [model_dump] gives the
    dicts the server hands to the bridge. What an endpoint does is an
    [http_result]: the response it returns, the [HTTPException] it raises,
    or another exception that leaves it. The values that
    [uuid.uuid4()] and [datetime.now()] give in a call are arguments of the
    function that models the call. *)

Module models.

Inductive ContentBlock : Type :=
| ContentBlockText (text : string)
| ContentBlockImage (source : pydict)
| ContentBlockStr (s : string).

Inductive Role : Type := user | assistant.

Inductive Content : Type :=
| ContentStr (s : string)
| ContentList (blocks : list ContentBlock).

Record Message : Type := { role : Role; content : Content }.

Record MessagesRequest : Type := {
  model : string;
  messages : list Message;
  max_tokens : Z;
  system : option string;
  temperature : option float;
  top_p : option float;
  top_k : option Z;
  stop_sequences : option (list string);
  stream : bool;
  metadata : option pydict
}.

Record CountTokensRequest : Type := {
  count_model : string;
  count_messages : list Message;
  count_system : option string
}.

Definition ContentBlock_dump (block : ContentBlock) : pyval :=
  match block with
  | ContentBlockText text => PDict [("type", PStr "text"); ("text", PStr text)]
  | ContentBlockImage source => PDict [("type", PStr "image"); ("source", PDict source)]
  | ContentBlockStr s => PStr s
  end.

Definition Role_dump (r : Role) : pyval :=
  match r with
  | user => PStr "user"
  | assistant => PStr "assistant"
  end.

Definition Content_dump (c : Content) : pyval :=
  match c with
  | ContentStr s => PStr s
  | ContentList blocks => PList (map ContentBlock_dump blocks)
  end.

(** [msg.model_dump()]. *)
Definition Message_dump (msg : Message) : pydict :=
  [("role", Role_dump (role msg)); ("content", Content_dump (content msg))].

(** [MessagesResponse(content=[ContentBlockResponse(text=text)], model=model,
    usage=Usage(...))] as the JSON object it is sent as; [id] is what the
    default factory of the field gives. *)
Definition MessagesResponse (id text model : string)
    (input_tokens output_tokens : Z) : pyval :=
  PDict [("id", PStr id);
         ("type", PStr "message");
         ("role", PStr "assistant");
         ("content", PList [PDict [("type", PStr "text"); ("text", PStr text)]]);
         ("model", PStr model);
         ("stop_reason", PStr "end_turn");
         ("stop_sequence", PNone);
         ("usage", PDict [("input_tokens", PInt input_tokens);
                          ("output_tokens", PInt output_tokens)])].

Definition CountTokensResponse (input_tokens : Z) : pyval :=
  PDict [("input_tokens", PInt input_tokens)].

Record BatchRequest : Type := { custom_id : string; params : MessagesRequest }.

Record CreateBatchRequest : Type := { requests : list BatchRequest }.

Definition option_dump {A : Type} (dump : A -> pyval) (o : option A) : pyval :=
  match o with
  | Some a => dump a
  | None => PNone
  end.

(** [request.model_dump()]. *)
Definition MessagesRequest_dump (request : MessagesRequest) : pydict :=
  [("model", PStr (model request));
   ("messages", PList (map (fun msg => PDict (Message_dump msg)) (messages request)));
   ("max_tokens", PInt (max_tokens request));
   ("system", option_dump PStr (system request));
   ("temperature", option_dump PFloat (temperature request));
   ("top_p", option_dump PFloat (top_p request));
   ("top_k", option_dump PInt (top_k request));
   ("stop_sequences",
    option_dump (fun l => PList (map PStr l)) (stop_sequences request));
   ("stream", PBool (stream request));
   ("metadata", option_dump PDict (metadata request))].

Definition BatchRequest_dump (r : BatchRequest) : pydict :=
  [("custom_id", PStr (custom_id r));
   ("params", PDict (MessagesRequest_dump (params r)))].

(** The validation of a required string field, of an optional string field
    and of the literal of [processing_status]. *)
Definition is_str (v : option pyval) : bool :=
  match v with
  | Some (PStr _) => true
  | _ => false
  end.

Definition is_optional_str (v : option pyval) : bool :=
  match v with
  | None | Some PNone | Some (PStr _) => true
  | _ => false
  end.

Definition is_status (v : option pyval) : bool :=
  match v with
  | Some (PStr s) =>
      String.eqb s "in_progress" || String.eqb s "ended" || String.eqb s "canceling"
  | _ => false
  end.

Definition is_batch_type (v : option pyval) : bool :=
  match v with
  | None => true
  | Some (PStr s) => String.eqb s "message_batch"
  | _ => false
  end.

Definition is_dict (v : option pyval) : bool :=
  match v with
  | Some (PDict _) => true
  | _ => false
  end.

(** [BatchInfo] built from the keyword arguments [fields], as the JSON
    object it is sent as: the fields of
    the model in the order of their declaration, keyword arguments that are
    no field being ignored; a [ValidationError] when a required field is
    missing or a field has the wrong type. *)
Definition BatchInfo (fields : pydict) : result pyval :=
  if is_str (dict_get "id" fields)
     && is_batch_type (dict_get "type" fields)
     && is_status (dict_get "processing_status" fields)
     && is_dict (dict_get "request_counts" fields)
     && is_str (dict_get "created_at" fields)
     && is_optional_str (dict_get "ended_at" fields)
     && is_str (dict_get "expires_at" fields)
     && is_optional_str (dict_get "results_url" fields)
  then
    Ok (PDict [("id", dict_get_default fields "id" PNone);
               ("type", PStr "message_batch");
               ("processing_status", dict_get_default fields "processing_status" PNone);
               ("request_counts", dict_get_default fields "request_counts" PNone);
               ("created_at", dict_get_default fields "created_at" PNone);
               ("ended_at", dict_get_default fields "ended_at" PNone);
               ("expires_at", dict_get_default fields "expires_at" PNone);
               ("results_url", dict_get_default fields "results_url" PNone)])
  else Raise (OtherError "ValidationError").

(** [ModelInfo(id=id, display_name=display_name)]; [created] is what the
    default factory of the field gives. *)
Definition ModelInfo (id display_name : string) (created : Z) : pydict :=
  [("id", PStr id);
   ("object", PStr "model");
   ("created", PInt created);
   ("owned_by", PStr "anthropic");
   ("display_name", PStr display_name);
   ("type", PStr "model")].

End models.

Inductive http_result (A : Type) : Type :=
| Respond (a : A)
| HTTPException (status_code : Z) (detail : pyval)
| Unhandled (e : exn).
Arguments Respond {A} a.
Arguments HTTPException {A} status_code detail.
Arguments Unhandled {A} e.

Inductive response : Type :=
| JSONResponse (body : pyval)
| StreamingResponse (frames : list effect).

(** The library of the server: [tiktoken]'s cl100k_base encoding of a text
    ([None] when getting the encoding or encoding raises), [json.dumps],
    and the time stamp each [ModelInfo] of [AVAILABLE_MODELS] got when the
    module was imported. *)
Class ServerRuntime : Type := {
  tiktoken_encode : string -> option (list Z);
  json_dumps : pyval -> string;
  import_timestamp : string -> Z
}.

(** [s.split()]: the words between runs of white space. *)
Fixpoint py_split_from (s word : string) : list string :=
  match s with
  | "" => if String.eqb word "" then [] else [word]
  | String c s' =>
      if is_space c then
        if String.eqb word "" then py_split_from s' ""
        else word :: py_split_from s' ""
      else py_split_from s' (word +:+ String c "")
  end.

Definition py_split (s : string) : list string := py_split_from s "".

(** [d[key]]. *)
Definition py_getitem (obj : pyval) (key : string) : result pyval :=
  match obj with
  | PDict d =>
      match dict_get key d with
      | Some v => Ok v
      | None => Raise KeyError
      end
  | _ => Raise TypeError  (* a string key on a string or a list; not subscriptable *)
  end.

(** [sum(l)]. *)
Definition py_sum (l : list Z) : Z := fold_left Z.add l 0.

Definition validate_api_key (x_api_key : option string) : bool :=
  match x_api_key with
  | Some key => negb (String.eqb key "")
  | None => false
  end.

Definition http_exception_handler (status_code : Z) (detail : pyval) : Z * pyval :=
  (status_code,
   PDict [("type", PStr "error");
          ("error",
           PDict [("type", PStr (if 500 <=? status_code
                                 then "api_error" else "invalid_request_error"));
                  ("message", detail)])]).

Section Server.
Context `{RT : PyRuntime} `{SRT : ServerRuntime}.

Definition count_tokens (text : string) : Z :=
  match tiktoken_encode text with
  | Some tokens => Z.of_nat (List.length tokens)
  | None => Z.of_nat (List.length (py_split text))
  end.

(** One frame of the event stream: [event['type']] and [json.dumps(event)]
    in the f-string of [stream_response]. *)
Definition sse_frame (event : pyval) : result string :=
  event_type <- py_getitem event "type";;
  Ok ("event: " +:+ format_value event_type +:+ nl
      +:+ "data: " +:+ json_dumps event +:+ nl +:+ nl).

(** The inner generator [stream_response] of [create_message] over the
    run of the bridge's generator: a frame per event; an exception, of the
    bridge or of the framing, leaves it. *)
Fixpoint stream_response (trace : list effect) : list effect :=
  match trace with
  | [] => []
  | Yield event :: trace' =>
      match sse_frame event with
      | Ok frame => Yield (PStr frame) :: stream_response trace'
      | Raise e => [Propagate e]
      end
  | ProcessWait :: trace' => ProcessWait :: stream_response trace'
  | Propagate e :: _ => [Propagate e]
  end.

(** The non-streaming part of [create_message], lines 124-145; [str(v)] is
    [format_value v]. *)
Definition create_message_complete (request : models.MessagesRequest)
    (messages : list pydict) (response_uuid_hex : string)
  : result (http_result response) :=
  result <- send_message messages (models.model request) (models.system request)
              (models.max_tokens request) None;;
  error <- py_get result "error" PNone;;
  if truthy error then
    detail <- py_get result "message" PNone;;
    Ok (HTTPException 500 detail)
  else
    content_text <- py_get result "content" (PStr "");;
    let content_text :=
      match content_text with
      | PDict d => dict_get_default d "text" (PStr (format_value content_text))
      | _ => content_text
      end in
    let input_tokens :=
      py_sum (map (fun msg =>
                     count_tokens (format_value (dict_get_default msg "content" (PStr ""))))
                  messages) in
    let output_tokens := count_tokens (format_value content_text) in
    Ok (Respond (JSONResponse
          (models.MessagesResponse
             ("msg_" +:+ slice_to 24 response_uuid_hex)
             (format_value content_text) (models.model request)
             input_tokens output_tokens))).

Definition create_message (request : models.MessagesRequest)
    (x_api_key : option string) (response_uuid_hex : string)
  : http_result response :=
  if negb (validate_api_key x_api_key) then
    HTTPException 401 (PStr "Invalid API key")
  else
    let messages := map models.Message_dump (models.messages request) in
    if models.stream request then
      Respond (StreamingResponse
        (stream_response
           (send_message_stream messages (models.model request)
              (models.system request) (models.max_tokens request) None)))
    else
      match create_message_complete request messages response_uuid_hex with
      | Ok r => r
      | Raise e => Unhandled e
      end.

(** The loop of [count_message_tokens] over the blocks of a list content. *)
Definition count_block (total_tokens : Z) (block : models.ContentBlock) : Z :=
  match block with
  | models.ContentBlockStr s => total_tokens + count_tokens s
  | models.ContentBlockText text => total_tokens + count_tokens text
  | models.ContentBlockImage _ => total_tokens
  end.

Definition count_message (total_tokens : Z) (msg : models.Message) : Z :=
  match models.content msg with
  | models.ContentStr s => total_tokens + count_tokens s
  | models.ContentList blocks => fold_left count_block blocks total_tokens
  end.

Definition count_message_tokens (request : models.CountTokensRequest)
    (x_api_key : option string) : http_result response :=
  if negb (validate_api_key x_api_key) then
    HTTPException 401 (PStr "Invalid API key")
  else
    let total_tokens := 0 in
    let total_tokens :=
      match models.count_system request with
      | Some s => if String.eqb s "" then total_tokens
                  else total_tokens + count_tokens s
      | None => total_tokens
      end in
    let total_tokens :=
      fold_left count_message (models.count_messages request) total_tokens in
    Respond (JSONResponse (models.CountTokensResponse total_tokens)).

Definition AVAILABLE_MODELS : list pydict :=
  map (fun '(id, display_name) =>
         models.ModelInfo id display_name (import_timestamp id))
    [("claude-opus-4-5-20251101", "Claude Opus 4.5");
     ("claude-sonnet-4-5-20251101", "Claude Sonnet 4.5");
     ("claude-3-5-sonnet-20241022", "Claude 3.5 Sonnet");
     ("claude-3-5-haiku-20241022", "Claude 3.5 Haiku");
     ("claude-3-opus-20240229", "Claude 3 Opus");
     ("claude-3-sonnet-20240229", "Claude 3 Sonnet");
     ("claude-3-haiku-20240307", "Claude 3 Haiku")].

(** The loop of [get_model]: the first model whose id is [model_id]. *)
Fixpoint find_model (available : list pydict) (model_id : string) : option pydict :=
  match available with
  | [] => None
  | m :: available' =>
      if eq_str (dict_get_default m "id" PNone) model_id then Some m
      else find_model available' model_id
  end.

Definition get_model (model_id : string) (x_api_key : option string)
  : http_result response :=
  if negb (validate_api_key x_api_key) then
    HTTPException 401 (PStr "Invalid API key")
  else
    match find_model AVAILABLE_MODELS model_id with
    | Some m => Respond (JSONResponse (PDict m))
    | None => HTTPException 404 (PStr ("Model " +:+ model_id +:+ " not found"))
    end.

End Server.

(** ** The in-memory stores

    [batches] and [files] are module-level dicts; an endpoint that reads or
    writes one takes the dict and returns it with its result. A dict with
    string keys is an association list in insertion order, without
    repeated keys. *)

(** [d[key]] when present. *)
Fixpoint store_get {V : Type} (key : string) (d : list (string * V)) : option V :=
  match d with
  | [] => None
  | (k, v) :: d' => if String.eqb k key then Some v else store_get key d'
  end.

(** [d[key] = v]: in place when the key is there, at the end when not. *)
Fixpoint store_set {V : Type} (key : string) (v : V) (d : list (string * V))
  : list (string * V) :=
  match d with
  | [] => [(key, v)]
  | (k, w) :: d' =>
      if String.eqb k key then (k, v) :: d' else (k, w) :: store_set key v d'
  end.

(** [del d[key]]; a list that stands for a dict has the key at most once. *)
Fixpoint store_del {V : Type} (key : string) (d : list (string * V))
  : list (string * V) :=
  match d with
  | [] => []
  | (k, w) :: d' =>
      if String.eqb k key then store_del key d' else (k, w) :: store_del key d'
  end.

(** [{k: v for k, v in d.items() if k not in keys}]. *)
Definition without_keys {V : Type} (keys : list string) (d : list (string * V))
  : list (string * V) :=
  List.filter (fun kv => negb (existsb (String.eqb (fst kv)) keys)) d.

(** [l[:limit]], the limit being any integer. *)
Definition slice_upto {A : Type} (limit : Z) (l : list A) : list A :=
  if 0 <=? limit then take (Z.to_nat limit) l
  else take (List.length l - Z.to_nat (- limit)) l.

(** A value of a file's dict: the body of the upload is bytes. *)
Inductive fileval : Type :=
| FVal (v : pyval)
| FBytes (b : list byte).

Abbreviation filedict := (list (string * fileval)).

Inductive file_response : Type :=
| FileJSON (body : filedict)
| FileList (data : list filedict).

Definition batch_not_found (batch_id : string) : pyval :=
  PStr ("Batch " +:+ batch_id +:+ " not found").

Definition file_not_found (file_id : string) : pyval :=
  PStr ("File " +:+ file_id +:+ " not found").

(** What an endpoint returns when building its response raised. *)
Definition respond_model (r : result pyval) : http_result response :=
  match r with
  | Ok body => Respond (JSONResponse body)
  | Raise e => Unhandled e
  end.

Definition batch_info (batch : pydict) : result pyval :=
  models.BatchInfo (without_keys ["requests"; "results"] batch).

Definition create_batch (request : models.CreateBatchRequest)
    (x_api_key : option string) (uuid_hex created_at expires_at : string)
    (batches : list (string * pydict))
  : http_result response * list (string * pydict) :=
  if negb (validate_api_key x_api_key) then
    (HTTPException 401 (PStr "Invalid API key"), batches)
  else
    let batch_id := "batch_" +:+ slice_to 24 uuid_hex in
    let batch :=
      [("id", PStr batch_id);
       ("type", PStr "message_batch");
       ("processing_status", PStr "in_progress");
       ("request_counts",
        PDict [("processing", PInt (Z.of_nat (List.length (models.requests request))));
               ("succeeded", PInt 0);
               ("errored", PInt 0);
               ("canceled", PInt 0);
               ("expired", PInt 0)]);
       ("created_at", PStr created_at);
       ("ended_at", PNone);
       ("expires_at", PStr expires_at);
       ("results_url", PNone);
       ("requests",
        PList (map (fun r => PDict (models.BatchRequest_dump r))
                 (models.requests request)));
       ("results", PList [])] in
    (respond_model (batch_info batch), store_set batch_id batch batches).

Definition get_batch (batch_id : string) (x_api_key : option string)
    (batches : list (string * pydict)) : http_result response :=
  if negb (validate_api_key x_api_key) then
    HTTPException 401 (PStr "Invalid API key")
  else
    match store_get batch_id batches with
    | None => HTTPException 404 (batch_not_found batch_id)
    | Some batch => respond_model (batch_info batch)
    end.

Definition cancel_batch (batch_id : string) (x_api_key : option string)
    (batches : list (string * pydict))
  : http_result response * list (string * pydict) :=
  if negb (validate_api_key x_api_key) then
    (HTTPException 401 (PStr "Invalid API key"), batches)
  else
    match store_get batch_id batches with
    | None => (HTTPException 404 (batch_not_found batch_id), batches)
    | Some batch =>
        let batch := store_set "processing_status" (PStr "canceling") batch in
        (respond_model (batch_info batch), store_set batch_id batch batches)
    end.

Definition get_batch_results (batch_id : string) (x_api_key : option string)
    (batches : list (string * pydict)) : http_result response :=
  if negb (validate_api_key x_api_key) then
    HTTPException 401 (PStr "Invalid API key")
  else
    match store_get batch_id batches with
    | None => HTTPException 404 (batch_not_found batch_id)
    | Some batch =>
        Respond (JSONResponse
          (PDict [("batch_id", PStr batch_id);
                  ("results", dict_get_default batch "results" (PList []))]))
    end.

(** The list comprehension of [list_batches]: it stops at the first
    [BatchInfo] that does not validate. *)
Fixpoint batch_infos (l : list pydict) : result (list pyval) :=
  match l with
  | [] => Ok []
  | batch :: l' =>
      info <- batch_info batch;;
      infos <- batch_infos l';;
      Ok (info :: infos)
  end.

Definition list_batches (x_api_key : option string) (limit : Z)
    (batches : list (string * pydict)) : http_result response :=
  if negb (validate_api_key x_api_key) then
    HTTPException 401 (PStr "Invalid API key")
  else
    respond_model
      (batch_list <- batch_infos (slice_upto limit (map snd batches));;
       Ok (PDict [("object", PStr "list"); ("data", PList batch_list)])).

Definition upload_file (body : list byte) (x_api_key : option string)
    (uuid_hex : string) (timestamp : Z) (files : list (string * filedict))
  : http_result file_response * list (string * filedict) :=
  if negb (validate_api_key x_api_key) then
    (HTTPException 401 (PStr "Invalid API key"), files)
  else
    let file_id := "file_" +:+ slice_to 24 uuid_hex in
    let file_info :=
      [("id", FVal (PStr file_id));
       ("object", FVal (PStr "file"));
       ("bytes", FVal (PInt (Z.of_nat (List.length body))));
       ("created_at", FVal (PInt timestamp));
       ("filename", FVal (PStr "uploaded_file"));
       ("purpose", FVal (PStr "assistants"));
       ("content", FBytes body)] in
    (Respond (FileJSON (without_keys ["content"] file_info)),
     store_set file_id file_info files).

Definition list_files (x_api_key : option string) (files : list (string * filedict))
  : http_result file_response :=
  if negb (validate_api_key x_api_key) then
    HTTPException 401 (PStr "Invalid API key")
  else
    Respond (FileList (map (fun f => without_keys ["content"] (snd f)) files)).

Definition get_file (file_id : string) (x_api_key : option string)
    (files : list (string * filedict)) : http_result file_response :=
  if negb (validate_api_key x_api_key) then
    HTTPException 401 (PStr "Invalid API key")
  else
    match store_get file_id files with
    | None => HTTPException 404 (file_not_found file_id)
    | Some file_info => Respond (FileJSON (without_keys ["content"] file_info))
    end.

Definition delete_file (file_id : string) (x_api_key : option string)
    (files : list (string * filedict))
  : http_result file_response * list (string * filedict) :=
  if negb (validate_api_key x_api_key) then
    (HTTPException 401 (PStr "Invalid API key"), files)
  else
    match store_get file_id files with
    | None => (HTTPException 404 (file_not_found file_id), files)
    | Some _ =>
        (Respond (FileJSON [("id", FVal (PStr file_id));
                            ("object", FVal (PStr "file"));
                            ("deleted", FVal (PBool true))]),
         store_del file_id files)
    end.

(** * Vocabulary of the properties *)

(** ** Streaming *)

(** The text a content-delta event carries; the empty string for any other
    event. *)
Definition delta_text (event : pyval) : string :=
  match event with
  | PDict d =>
      if eq_str (dict_get_default d "type" PNone) "content_block_delta" then
        match dict_get "delta" d with
        | Some (PDict delta) =>
            match dict_get "text" delta with
            | Some (PStr t) => t
            | _ => ""
            end
        | _ => ""
        end
      else ""
  | _ => ""
  end.

(** The concatenation of the content-delta texts of a trace. *)
Definition emitted_text (trace : list effect) : string :=
  String.concat "" (map delta_text (events trace)).

(** Whether the trace awaits the exit status of the subprocess. *)
Definition reaps (trace : list effect) : bool :=
  existsb (fun eff => match eff with ProcessWait => true | _ => false end) trace.

(** The effects are content deltas only, each with a non-empty text. *)
Definition deltas_only (effs : list effect) : Prop :=
  exists texts, Forall (fun t => t <> "") texts /\
    effs = map (fun t => Yield (content_block_delta t)) texts.

Section StreamVocabulary.
Context `{RT : PyRuntime}.

(** The line is an assistant event whose [message.content[0].text] is the
    string [text], and whose [message.usage], when present, is a dict. *)
Definition assistant_snapshot (line : list byte) (text : string) : Prop :=
  exists decoded event msg first rest usage,
    bytes_decode line = Some decoded /\
    strip decoded <> "" /\
    json_loads (strip decoded) = Some (PDict event) /\
    dict_get_default event "type" (PStr "") = PStr "assistant" /\
    dict_get_default event "message" (PDict []) = PDict msg /\
    dict_get_default msg "content" (PList []) = PList (PDict first :: rest) /\
    dict_get_default first "text" (PStr "") = PStr text /\
    dict_get_default msg "usage" (PDict []) = PDict usage.

(** The line is not an assistant event and raises nothing: it is blank, or
    not JSON, or an event of another type (a result event with a dict, or
    no, usage). *)
Definition other_line (line : list byte) : Prop :=
  exists decoded,
    bytes_decode line = Some decoded /\
    (strip decoded = "" \/
     json_loads (strip decoded) = None \/
     exists event,
       json_loads (strip decoded) = Some (PDict event) /\
       eq_str (dict_get_default event "type" (PStr "")) "assistant" = false /\
       (eq_str (dict_get_default event "type" (PStr "")) "result" = true ->
        exists usage, dict_get_default event "usage" (PDict []) = PDict usage)).

(** [observed lines texts]: the assistant snapshots among the lines of the
    subprocess are [texts], in this order; every other line is an
    [other_line]. *)
Inductive observed : list (list byte) -> list string -> Prop :=
| observed_nil : observed [] []
| observed_other line lines texts :
    other_line line -> observed lines texts -> observed (line :: lines) texts
| observed_snapshot line text lines texts :
    assistant_snapshot line text -> observed lines texts ->
    observed (line :: lines) (text :: texts).

(** Each snapshot starts with the one before it, the first with [buffer]. *)
Fixpoint prefix_chain (buffer : string) (texts : list string) : Prop :=
  match texts with
  | [] => True
  | text :: texts' => startswith text buffer = true /\ prefix_chain text texts'
  end.

End StreamVocabulary.

(** ** Formatter *)

(** The request schema's shape of a content part: a text block carries a
    string. *)
Definition wf_part (part : pyval) : bool :=
  match part with
  | PDict d =>
      if eq_str (dict_get_default d "type" PNone) "text" then
        match dict_get_default d "text" (PStr "") with
        | PStr _ => true
        | _ => false
        end
      else true
  | _ => true
  end.

(** The request schema's shape of a message: it has a role, and its content
    is a string or a list of parts. *)
Definition wf_message (msg : pydict) : bool :=
  match dict_get "role" msg with Some _ => true | None => false end &&
  match dict_get_default msg "content" (PStr "") with
  | PStr _ => true
  | PList parts => forallb wf_part parts
  | _ => false
  end.

(** The formatter in the specification's words: a bracketed system
    paragraph when the preamble is present; per message, the text parts
    joined by line feeds, under the label of the role; paragraphs joined by
    a blank line. *)
Definition spec_part_text (part : pyval) : option string :=
  match part with
  | PStr s => Some s
  | PDict d =>
      if eq_str (dict_get_default d "type" PNone) "text" then
        match dict_get_default d "text" (PStr "") with
        | PStr s => Some s
        | _ => None
        end
      else None
  | _ => None
  end.

Definition spec_message_text (msg : pydict) : string :=
  match dict_get_default msg "content" (PStr "") with
  | PStr s => s
  | PList parts => join nl (omap spec_part_text parts)
  | _ => ""
  end.

Definition spec_role_label (msg : pydict) : option string :=
  match dict_get "role" msg with
  | Some (PStr role) =>
      if String.eqb role "user" then Some "User: "
      else if String.eqb role "assistant" then Some "Assistant: "
      else None
  | _ => None
  end.

Definition spec_paragraph (msg : pydict) : option string :=
  match spec_role_label msg with
  | Some label => Some (label +:+ spec_message_text msg)
  | None => None
  end.

Definition spec_system_paragraph (system : option string) : list string :=
  match system with
  | Some s => ["[System: " +:+ s +:+ "]"]
  | None => []
  end.

(** The preamble as the formatter reads it: the empty string is no
    preamble. *)
Definition effective_system (system : option string) : option string :=
  match system with
  | Some s => if String.eqb s "" then None else Some s
  | None => None
  end.

Definition spec_prompt (messages : list pydict) (system : option string) : string :=
  join (nl +:+ nl) (spec_system_paragraph system ++ omap spec_paragraph messages).

(** ** Streaming, further *)

(** The buffer after the snapshots [texts]: the last of them that is not
    empty, the starting buffer when there is none. *)
Definition last_snapshot (buffer : string) (texts : list string) : string :=
  fold_left (fun b text => if String.eqb text "" then b else text) texts buffer.


Definition event_type_in (types : list string) (event : pyval) : Prop :=
  exists d t, event = PDict d /\ dict_get "type" d = Some (PStr t) /\ t ∈ types.

Section StreamVocabularyFurther.
Context `{RT : PyRuntime}.

(** The line is blank or is not JSON. *)
Definition ignored_line (line : list byte) : Prop :=
  exists decoded,
    bytes_decode line = Some decoded /\
    (strip decoded = "" \/ json_loads (strip decoded) = None).

(** The line is a result event whose usage gives [tokens] as its
    output_tokens. *)
Definition result_event_line (line : list byte) (tokens : pyval) : Prop :=
  exists decoded event usage,
    bytes_decode line = Some decoded /\
    strip decoded <> "" /\
    json_loads (strip decoded) = Some (PDict event) /\
    dict_get_default event "type" (PStr "") = PStr "result" /\
    dict_get_default event "usage" (PDict []) = PDict usage /\
    dict_get "output_tokens" usage = Some tokens.

End StreamVocabularyFurther.

(** ** Server *)

(** The type of an event, the empty string when it has none. *)
Definition event_type (event : pyval) : string :=
  match event with
  | PDict d =>
      match dict_get "type" d with
      | Some (PStr t) => t
      | _ => ""
      end
  | _ => ""
  end.

(** The types of the events of the wire protocol that the bridge emits. *)
Definition stream_event_types : list string :=
  ["message_start"; "content_block_start"; "content_block_delta";
   "content_block_stop"; "message_delta"; "message_stop"; "error"].

(** The texts of a request that are counted as tokens: a string content,
    and of a list content the strings and the texts of the text blocks. *)
Definition counted_texts (msg : models.Message) : list string :=
  match models.content msg with
  | models.ContentStr s => [s]
  | models.ContentList blocks =>
      omap spec_part_text (map models.ContentBlock_dump blocks)
  end.

(** ** Stores *)

(** The dict of a batch as [create_batch] builds it, with the status it
    has now. *)
Definition batch_shape (batch_id status : string) (processing : Z)
    (created_at expires_at : string) (requests : list pyval) : pydict :=
  [("id", PStr batch_id);
   ("type", PStr "message_batch");
   ("processing_status", PStr status);
   ("request_counts",
    PDict [("processing", PInt processing);
           ("succeeded", PInt 0);
           ("errored", PInt 0);
           ("canceled", PInt 0);
           ("expired", PInt 0)]);
   ("created_at", PStr created_at);
   ("ended_at", PNone);
   ("expires_at", PStr expires_at);
   ("results_url", PNone);
   ("requests", PList requests);
   ("results", PList [])].

(** What is sent for such a batch. *)
Definition batch_shape_info (batch_id status : string) (processing : Z)
    (created_at expires_at : string) : pydict :=
  [("id", PStr batch_id);
   ("type", PStr "message_batch");
   ("processing_status", PStr status);
   ("request_counts",
    PDict [("processing", PInt processing);
           ("succeeded", PInt 0);
           ("errored", PInt 0);
           ("canceled", PInt 0);
           ("expired", PInt 0)]);
   ("created_at", PStr created_at);
   ("ended_at", PNone);
   ("expires_at", PStr expires_at);
   ("results_url", PNone)].

(** The stores of batches the server can be in: [batches] starts empty,
    and [create_batch] and [cancel_batch] are the only endpoints that
    write it. *)
Inductive reachable_batches : list (string * pydict) -> Prop :=
| reachable_start : reachable_batches []
| reachable_create request x_api_key uuid_hex created_at expires_at batches :
    reachable_batches batches ->
    reachable_batches
      (snd (create_batch request x_api_key uuid_hex created_at expires_at batches))
| reachable_cancel batch_id x_api_key batches :
    reachable_batches batches ->
    reachable_batches (snd (cancel_batch batch_id x_api_key batches)).

(** * Inputs of the concrete runs *)

(** ** A runtime *)

(** JSON text written with an apostrophe where JSON has the double quote. *)
Fixpoint json_text (s : string) : string :=
  match s with
  | "" => ""
  | String c s' =>
      String (if Ascii.eqb c (ascii_of_nat 39) then ascii_of_nat 34 else c)
             (json_text s')
  end.

(** A line of output: the text and its line feed, as bytes. *)
Definition line_of (s : string) : list byte := list_byte_of_string (s +:+ nl).

(** [bytes.decode()] on the inputs of the examples: 7-bit bytes decode to
    the same characters; a byte from 0x80 on is refused, as the UTF-8 codec
    refuses the byte 0xff, the only such byte the examples use. *)
Definition ascii_decode (b : list byte) : option string :=
  if forallb (fun x => (Byte.to_nat x <? 128)%nat) b
  then Some (string_of_list_byte b)
  else None.

(** The stream-json line of an assistant event with one text block, and
    the object [json.loads] builds from it. *)
Definition assistant_json (text : string) : string :=
  json_text ("{'type':'assistant','message':{'content':[{'type':'text','text':'"
             +:+ text +:+ "'}]}}").

Definition assistant_value (text : string) : pyval :=
  PDict [("type", PStr "assistant");
         ("message",
          PDict [("content",
                  PList [PDict [("type", PStr "text"); ("text", PStr text)]])])].

Definition result_json : string :=
  json_text "{'type':'result','usage':{'output_tokens':7}}".

Definition result_value : pyval :=
  PDict [("type", PStr "result"); ("usage", PDict [("output_tokens", PInt 7)])].

(** The one-shot JSON document of a successful completion. *)
Definition completion_json : string :=
  json_text "{'result':'hi','usage':{'input_tokens':1,'output_tokens':1}}".

Definition completion_value : pyval :=
  PDict [("result", PStr "hi");
         ("usage", PDict [("input_tokens", PInt 1); ("output_tokens", PInt 1)])].

(** [json.loads] on the inputs of the examples: the texts of this table
    load to the objects beside them; every other text the examples use
    ("not json" among them) is not JSON. *)
Definition loads_table : list (string * pyval) :=
  [(assistant_json "Hel", assistant_value "Hel");
   (assistant_json "Hello", assistant_value "Hello");
   (assistant_json "Hello, world", assistant_value "Hello, world");
   (assistant_json "Bonjour", assistant_value "Bonjour");
   (result_json, result_value);
   (completion_json, completion_value);
   ("[1]", PList [PInt 1])].

Definition example_loads (s : string) : option pyval := dict_get s loads_table.

(** [str(e)] for the two exceptions the examples raise. *)
Definition example_exn_str (e : exn) : string :=
  match e with
  | AttributeError => "'list' object has no attribute 'get'"
  | UnicodeDecodeError =>
      "'utf-8' codec can't decode byte 0xff in position 0: invalid start byte"
  | _ => "error"
  end.

(** The runtime of the examples; [spawn] is what spawning the subprocess
    gives. [py_repr] is not reached by any example. *)
Definition example_runtime (spawn : result process) : PyRuntime :=
  {| bytes_decode := ascii_decode;
     json_loads := example_loads;
     py_repr := fun _ => "<object>";
     exn_str := example_exn_str;
     create_subprocess_exec := fun _ => spawn;
     uuid4_hex := "0123456789abcdef0123456789abcdef" |}.

Definition user_hi : pydict := [("role", PStr "user"); ("content", PStr "hi")].

(** Three snapshots, each extending the one before, with a blank line and
    the result event around them. *)
Definition growing_process : process :=
  {| stdout_lines := [line_of (assistant_json "Hel");
                      line_of "";
                      line_of (assistant_json "Hello");
                      line_of (assistant_json "Hello, world");
                      line_of result_json];
     stderr := [];
     returncode := 0 |}.

(** A line that is JSON but not an object. *)
Definition list_line_process : process :=
  {| stdout_lines := [line_of (assistant_json "Hello"); line_of "[1]"];
     stderr := [];
     returncode := 0 |}.

Definition completion_process : process :=
  {| stdout_lines := [line_of completion_json]; stderr := []; returncode := 0 |}.

Definition not_json_process : process :=
  {| stdout_lines := [line_of "not json"]; stderr := []; returncode := 0 |}.

Definition undecodable_process : process :=
  {| stdout_lines := [[xff]]; stderr := []; returncode := 0 |}.

Definition boom_process : process :=
  {| stdout_lines := []; stderr := list_byte_of_string "boom"; returncode := 2 |}.

(** ** Conversations and an absent executable *)

Definition no_process : result process := Raise FileNotFoundError.

(** A conversation with a list content (a string part, an image block, a
    text block) and a message whose role is neither user nor assistant. *)
Definition mixed_conversation : list pydict :=
  [user_hi;
   [("role", PStr "assistant");
    ("content", PList [PStr "a";
                       PDict [("type", PStr "image"); ("source", PDict [])];
                       PDict [("type", PStr "text"); ("text", PStr "b")]])];
   [("role", PStr "system"); ("content", PStr "ignored")]].

(** ** Further processes *)

(** The whole output is JSON but not an object. *)
Definition list_output_process : process :=
  {| stdout_lines := [line_of "[1]"]; stderr := []; returncode := 0 |}.

(** Snapshots that do not extend one another, then the result event. *)
Definition replacing_process : process :=
  {| stdout_lines := [line_of (assistant_json "Hello");
                      line_of (assistant_json "Bonjour");
                      line_of "not json";
                      line_of result_json];
     stderr := [];
     returncode := 0 |}.

(** A spawn that fails for another reason than a missing executable. *)
Definition denied_process : result process := Raise (OtherError "PermissionError").

(** ** A server runtime and requests *)

(** The library of the server in the examples: the tokenizer cannot be
    loaded, so tokens are counted as words; [json_dumps] is not reached by
    an example that states a frame. *)
Definition example_server_runtime : ServerRuntime :=
  {| tiktoken_encode := fun _ => None;
     json_dumps := fun _ => "{}";
     import_timestamp := fun _ => 1700000000 |}.

Definition hi_request (stream : bool) : models.MessagesRequest :=
  {| models.model := "claude-3-opus-20240229";
     models.messages :=
       [{| models.role := models.user; models.content := models.ContentStr "hi" |}];
     models.max_tokens := 4096;
     models.system := None;
     models.temperature := Some 1%float;
     models.top_p := None;
     models.top_k := None;
     models.stop_sequences := None;
     models.stream := stream;
     models.metadata := None |}.

Definition mixed_count_request : models.CountTokensRequest :=
  {| models.count_model := "sonnet";
     models.count_messages :=
       [{| models.role := models.user;
           models.content := models.ContentStr "one two" |};
        {| models.role := models.assistant;
           models.content :=
             models.ContentList [models.ContentBlockStr "three";
                                 models.ContentBlockImage [];
                                 models.ContentBlockText "four five six"] |}];
     models.count_system := Some "be brief" |}.

(** ** Stores with two batches and with one file *)

Definition two_requests : models.CreateBatchRequest :=
  {| models.requests :=
       [{| models.custom_id := "a"; models.params := hi_request false |};
        {| models.custom_id := "b"; models.params := hi_request true |}] |}.

Definition first_uuid : string := "0123456789abcdef0123456789abcdef".
Definition second_uuid : string := "fedcba9876543210fedcba9876543210".

(** The store after two batches were created. *)
Definition two_batches : list (string * pydict) :=
  snd (create_batch two_requests (Some "key") second_uuid
         "2025-01-02T00:00:00" "2025-01-03T00:00:00"
         (snd (create_batch two_requests (Some "key") first_uuid
                 "2025-01-01T00:00:00" "2025-01-02T00:00:00" []))).

Definition one_file : list (string * filedict) :=
  snd (upload_file (list_byte_of_string "hello") (Some "key") first_uuid 1700000000 []).

(** * Properties *)

(** ** Model name mapping *)

Lemma MODEL_MAPPING_values :
  map_Forall (fun _ v => v ∈ canonical_names) MODEL_MAPPING.
Proof.
  unfold MODEL_MAPPING, canonical_names.
  repeat (apply map_Forall_insert_2; [set_solver|]).
  apply map_Forall_empty.
Qed.

(** C8. Whatever the identifier, the mapper returns one of the canonical
    short names, and an identifier that is not a key of the table is mapped
    to the default name "sonnet". *)
Theorem map_model_closed_default (model : string) :
  _map_model model ∈ canonical_names /\
  (MODEL_MAPPING !! model = None -> _map_model model = "sonnet").
Proof.
  unfold _map_model. split.
  - destruct (MODEL_MAPPING !! model) as [v|] eqn:E; simpl.
    + exact (MODEL_MAPPING_values _ _ E).
    + unfold canonical_names. set_solver.
  - intros ->. reflexivity.
Qed.

Lemma map_model_closed_default_witness :
  MODEL_MAPPING !! "gpt-4" = None /\ _map_model "gpt-4" = "sonnet".
Proof.
  assert (E : MODEL_MAPPING !! "gpt-4" = None) by (vm_compute; reflexivity).
  split; [exact E|].
  exact (proj2 (map_model_closed_default "gpt-4") E).
Defined.

(** ** Strings, the result monad and the generator monad *)

Lemma app_cons (c : ascii) (s t : string) :
  String c s +:+ t = String c (s +:+ t).
Proof. reflexivity. Qed.

Lemma app_nil (t : string) : "" +:+ t = t.
Proof. reflexivity. Qed.

Lemma startswith_slice (text buffer : string) :
  startswith text buffer = true ->
  buffer +:+ slice_from (String.length buffer) text = text.
Proof.
  unfold startswith. revert text.
  induction buffer as [|c buffer IH]; intros text Hp.
  - reflexivity.
  - destruct text as [|d text]; simpl in Hp; [discriminate|].
    destruct (ascii_dec c d) as [->|]; [|discriminate].
    simpl. rewrite app_cons. f_equal. apply IH, Hp.
Qed.

Lemma startswith_nil (s : string) : startswith s "" = true.
Proof. destruct s; reflexivity. Qed.

Lemma startswith_empty (s : string) : startswith "" s = true -> s = "".
Proof. destruct s; [reflexivity|discriminate]. Qed.

Lemma app_empty_r (s : string) : s +:+ "" = s.
Proof.
  induction s as [|c s IH]; [reflexivity|].
  rewrite app_cons. f_equal. exact IH.
Qed.

Lemma str_app_assoc (s t u : string) : (s +:+ t) +:+ u = s +:+ (t +:+ u).
Proof.
  induction s as [|c s IH]; [reflexivity|].
  rewrite !app_cons. f_equal. exact IH.
Qed.

Lemma concat_empty_cons (x : string) (l : list string) :
  String.concat "" (x :: l) = x +:+ String.concat "" l.
Proof.
  destruct l as [|y l]; simpl; [symmetry; apply app_empty_r|reflexivity].
Qed.

Lemma concat_empty_app (l1 l2 : list string) :
  String.concat "" (l1 ++ l2) = String.concat "" l1 +:+ String.concat "" l2.
Proof.
  induction l1 as [|x l1 IH]; [reflexivity|].
  rewrite <- app_comm_cons, !concat_empty_cons, IH.
  symmetry. apply str_app_assoc.
Qed.

(** ** The streaming loop *)

Section StreamProperties.
Context `{RT : PyRuntime}.

Lemma emitted_text_app (t1 t2 : list effect) :
  emitted_text (t1 ++ t2) = emitted_text t1 +:+ emitted_text t2.
Proof.
  unfold emitted_text.
  assert (E : events (t1 ++ t2) = events t1 ++ events t2).
  { induction t1 as [|[ev| |e] t1 IH]; simpl; [reflexivity|f_equal|..]; exact IH. }
  rewrite E, map_app. apply concat_empty_app.
Qed.

Lemma gbind_lift_ok {A B : Type} (a : A) (k : A -> gen B) :
  gbind (lift (Ok a)) k = k a.
Proof. unfold gbind, lift. destruct (k a); reflexivity. Qed.

Lemma gbind_ok {A B : Type} (effs : list effect) (a : A) (k : A -> gen B) :
  gbind (effs, Ok a) k = (effs ++ fst (k a), snd (k a)).
Proof. unfold gbind. destruct (k a); reflexivity. Qed.

(** The text of a snapshot against the buffer. *)
Lemma observe_content_snapshot (first : pydict) (rest : list pyval)
    (text buffer : string) :
  dict_get_default first "text" (PStr "") = PStr text ->
  observe_content buffer (PList (PDict first :: rest)) =
  if String.eqb text "" || String.eqb text buffer then ([], Ok buffer)
  else
    let new_text := if startswith text buffer
                    then slice_from (String.length buffer) text else text in
    ((if String.eqb new_text "" then [] else [Yield (content_block_delta new_text)]),
     Ok text).
Proof.
  intros Htx. unfold observe_content.
  change (truthy (PList (PDict first :: rest))) with true. cbv iota.
  change (py_len (PList (PDict first :: rest)))
    with (Ok (Z.of_nat (S (List.length rest)))).
  rewrite gbind_lift_ok.
  replace (0 <? Z.of_nat (S (List.length rest))) with true
    by (symmetry; apply Z.ltb_lt; lia).
  change (py_index0 (PList (PDict first :: rest))) with (Ok (PDict first)).
  rewrite gbind_lift_ok.
  change (py_get (PDict first) "text" (PStr ""))
    with (Ok (dict_get_default first "text" (PStr ""))).
  rewrite gbind_lift_ok, Htx.
  change (truthy (PStr text)) with (negb (String.eqb text "")).
  change (eq_str (PStr text) buffer) with (String.eqb text buffer).
  destruct (String.eqb text "") eqn:E1; [reflexivity|].
  destruct (String.eqb text buffer) eqn:E2; [reflexivity|].
  cbn [negb andb orb]. cbv zeta. clear E1 E2.
  destruct (String.eqb _ ""); reflexivity.
Qed.

(** One assistant snapshot against the buffer. *)
Lemma stream_line_snapshot (line : list byte) (text buffer : string) (tokens : pyval) :
  assistant_snapshot line text ->
  exists tokens',
    stream_line (buffer, tokens) line =
    if String.eqb text "" || String.eqb text buffer then
      ([], Ok (buffer, tokens'))
    else
      let new_text := if startswith text buffer
                      then slice_from (String.length buffer) text else text in
      ((if String.eqb new_text "" then [] else [Yield (content_block_delta new_text)]),
       Ok (text, tokens')).
Proof.
  intros (decoded & event & msg & first & rest & usage &
          Hd & Hne & Hj & Ht & Hm & Hc & Htx & Hu).
  exists (dict_get_default usage "output_tokens" tokens).
  unfold stream_line, decode. rewrite Hd, gbind_lift_ok.
  apply String.eqb_neq in Hne. rewrite Hne, Hj.
  change (py_get (PDict event) "type" (PStr ""))
    with (Ok (dict_get_default event "type" (PStr ""))).
  rewrite gbind_lift_ok, Ht.
  change (eq_str (PStr "assistant") "assistant") with true. cbv iota.
  change (py_get (PDict event) "message" (PDict []))
    with (Ok (dict_get_default event "message" (PDict []))).
  rewrite gbind_lift_ok, Hm.
  change (py_get (PDict msg) "content" (PList []))
    with (Ok (dict_get_default msg "content" (PList []))).
  rewrite gbind_lift_ok, Hc.
  rewrite (observe_content_snapshot first rest text buffer Htx).
  change (py_get (PDict msg) "usage" (PDict []))
    with (Ok (dict_get_default msg "usage" (PDict []))).
  destruct (String.eqb text "" || String.eqb text buffer).
  - rewrite gbind_ok, gbind_lift_ok, Hu. reflexivity.
  - cbv zeta. rewrite gbind_ok, gbind_lift_ok, Hu. simpl.
    rewrite app_nil_r. reflexivity.
Qed.

(** A line that is not an assistant event leaves the buffer and yields
    nothing. *)
Lemma stream_line_other (line : list byte) (buffer : string) (tokens : pyval) :
  other_line line ->
  exists tokens', stream_line (buffer, tokens) line = ([], Ok (buffer, tokens')).
Proof.
  intros (decoded & Hd & Hcase).
  unfold stream_line, decode. rewrite Hd. simpl.
  destruct (String.eqb (strip decoded) "") eqn:Eb; [eexists; reflexivity|].
  destruct Hcase as [Hs | [Hj | (event & Hj & Ha & Hr)]].
  - apply String.eqb_neq in Eb. contradiction.
  - rewrite Hj. eexists; reflexivity.
  - rewrite Hj. simpl. rewrite Ha.
    destruct (eq_str (dict_get_default event "type" (PStr "")) "result") eqn:Er.
    + destruct (Hr eq_refl) as [usage Hu]. rewrite Hu. simpl. eexists; reflexivity.
    + eexists; reflexivity.
Qed.

Lemma last_cons_default {A : Type} (a d : A) (l : list A) :
  List.last (a :: l) d = List.last l a.
Proof.
  revert a d. induction l as [|b l IH]; intros a d; [reflexivity|].
  change (List.last (a :: b :: l) d) with (List.last (b :: l) d).
  rewrite (IH b d), (IH b a). reflexivity.
Qed.

(** Along a chain of snapshots each of which extends the one before, the
    buffer followed by the deltas of the loop is the last snapshot, which
    is also the final buffer. *)
Lemma stream_loop_prefix_chain (lines : list (list byte)) (texts : list string) :
  observed lines texts ->
  forall (buffer : string) (tokens : pyval),
    prefix_chain buffer texts ->
    exists effs tokens',
      gfor_each stream_line lines (buffer, tokens)
        = (effs, Ok (List.last texts buffer, tokens')) /\
      buffer +:+ emitted_text effs = List.last texts buffer.
Proof.
  induction 1 as [| line lines texts Hline _ IH
                  | line text lines texts Hline _ IH];
    intros buffer tokens Hchain.
  - exists [], tokens. split; [reflexivity|apply app_empty_r].
  - destruct (stream_line_other line buffer tokens Hline) as [tokens1 E1].
    destruct (IH buffer tokens1 Hchain) as (effs & tokens' & E & Htext).
    exists effs, tokens'. split; [|exact Htext].
    cbn [gfor_each]. rewrite E1, gbind_ok, E. reflexivity.
  - destruct Hchain as [Hstart Hchain].
    destruct (stream_line_snapshot line text buffer tokens Hline) as [tokens1 E1].
    rewrite last_cons_default.
    destruct (String.eqb text "" || String.eqb text buffer) eqn:Esame.
    + assert (Hbuf : buffer = text).
      { apply orb_true_iff in Esame as [E | E]; apply String.eqb_eq in E.
        - subst text. apply startswith_empty, Hstart.
        - congruence. }
      subst buffer.
      destruct (IH text tokens1 Hchain) as (effs & tokens' & E & Htext).
      exists effs, tokens'. split; [|exact Htext].
      cbn [gfor_each]. rewrite E1, gbind_ok, E. reflexivity.
    + rewrite Hstart in E1. cbv zeta in E1.
      destruct (IH text tokens1 Hchain) as (effs & tokens' & E & Htext).
      eexists _, tokens'. split.
      * cbn [gfor_each]. rewrite E1, gbind_ok, E. reflexivity.
      * cbn [fst]. rewrite emitted_text_app, <- str_app_assoc.
        replace (buffer +:+ emitted_text _) with text; [exact Htext|].
        rewrite <- (startswith_slice text buffer Hstart) at 1. f_equal.
        destruct (String.eqb (slice_from (String.length buffer) text) "") eqn:Ee.
        -- apply String.eqb_eq in Ee. rewrite Ee. reflexivity.
        -- unfold emitted_text. simpl. reflexivity.
Qed.

(** The run of the generator once the prompt is formatted and the
    subprocess is spawned: the two bootstrap events, what the loop over the
    lines does, then the teardown, or the error event when the loop
    raised. *)
Lemma send_message_stream_spawned (messages : list pydict) (model : string)
    (system : option string) (max_tokens : Z) (session_id : option string)
    (prompt : string) (p : process) :
  _format_messages_as_prompt messages system = Ok prompt ->
  create_subprocess_exec (stream_command prompt model session_id) = Ok p ->
  send_message_stream messages model system max_tokens session_id =
  Yield (message_start ("msg_" +:+ slice_to 24 uuid4_hex) model)
  :: Yield content_block_start
  :: fst (gfor_each stream_line (stdout_lines p) ("", PInt 0))
  ++ match snd (gfor_each stream_line (stdout_lines p) ("", PInt 0)) with
     | Ok acc => [Yield content_block_stop; Yield (message_delta (snd acc));
                  Yield message_stop; ProcessWait]
     | Raise e => fst (send_message_stream_except e)
     end.
Proof.
  intros Hfmt Hspawn. unfold send_message_stream. rewrite Hfmt.
  unfold send_message_stream_try. rewrite Hspawn, gbind_lift_ok.
  destruct (gfor_each stream_line (stdout_lines p) ("", PInt 0))
    as [effs [acc|e]].
  - simpl. rewrite ?app_nil_r. reflexivity.
  - simpl. destruct e; simpl; rewrite ?app_nil_r; reflexivity.
Qed.

(** C1. When the snapshots the subprocess shows are S1, S2, S3 in this
    order, each a prefix of the next, the texts of the content deltas the
    stream emits, concatenated, are exactly S3. *)
Theorem stream_prefix_snapshots_concat (messages : list pydict) (model : string)
    (system : option string) (max_tokens : Z) (session_id : option string)
    (prompt : string) (p : process) (S1 S2 S3 : string) :
  _format_messages_as_prompt messages system = Ok prompt ->
  create_subprocess_exec (stream_command prompt model session_id) = Ok p ->
  observed (stdout_lines p) [S1; S2; S3] ->
  startswith S2 S1 = true ->
  startswith S3 S2 = true ->
  emitted_text (send_message_stream messages model system max_tokens session_id) = S3.
Proof.
  intros Hfmt Hspawn Hobs H12 H23.
  rewrite (send_message_stream_spawned _ _ _ _ _ _ _ Hfmt Hspawn).
  assert (Hchain : prefix_chain "" [S1; S2; S3])     by (simpl; repeat split; try assumption; apply startswith_nil).
  destruct (stream_loop_prefix_chain _ _ Hobs "" (PInt 0) Hchain)
    as (effs & tokens' & E & Htext).
  rewrite E. cbn [fst snd].
  change (Yield ?a :: Yield ?b :: ?l) with ([Yield a; Yield b] ++ l).
  rewrite !emitted_text_app. rewrite app_nil in Htext. rewrite Htext.
  simpl. apply app_empty_r.
Qed.

(** C2. A non-empty snapshot that differs from the buffer and does not
    start with it is emitted whole as one content delta, and becomes the
    buffer. *)
Theorem stream_line_replaces_buffer (line : list byte) (text buffer : string)
    (tokens : pyval) :
  assistant_snapshot line text ->
  text <> "" ->
  text <> buffer ->
  startswith text buffer = false ->
  exists tokens',
    stream_line (buffer, tokens) line
    = ([Yield (content_block_delta text)], Ok (text, tokens')).
Proof.
  intros Hline Hne Hdiff Hstart.
  destruct (stream_line_snapshot line text buffer tokens Hline) as [tokens' E].
  exists tokens'. rewrite E.
  apply String.eqb_neq in Hne. apply String.eqb_neq in Hdiff.
  rewrite Hne, Hdiff, Hstart. simpl. rewrite Hne. reflexivity.
Qed.

(** *** The shape of a trace *)

Lemma deltas_only_nil : deltas_only [].
Proof. exists []. split; [constructor|reflexivity]. Qed.

Lemma deltas_only_app (e1 e2 : list effect) :
  deltas_only e1 -> deltas_only e2 -> deltas_only (e1 ++ e2).
Proof.
  intros (t1 & F1 & ->) (t2 & F2 & ->). exists (t1 ++ t2). split.
  - apply Forall_app; auto.
  - rewrite map_app. reflexivity.
Qed.

Lemma deltas_only_gbind {A B : Type} (m : gen A) (k : A -> gen B) :
  deltas_only (fst m) -> (forall a, deltas_only (fst (k a))) ->
  deltas_only (fst (gbind m k)).
Proof.
  destruct m as [effs [a|e]]; intros Hm Hk; [|exact Hm].
  rewrite gbind_ok. apply deltas_only_app; [exact Hm|apply Hk].
Qed.

Lemma deltas_only_lift {A : Type} (r : result A) : deltas_only (fst (lift r)).
Proof. apply deltas_only_nil. Qed.

Ltac deltas_step :=
  first [ apply deltas_only_nil
        | apply deltas_only_lift
        | apply deltas_only_gbind; [|intros ?] ].

Lemma observe_content_deltas (buffer : string) (content : pyval) :
  deltas_only (fst (observe_content buffer content)).
Proof.
  unfold observe_content.
  destruct (truthy content); [|apply deltas_only_nil].
  deltas_step; [deltas_step|].
  destruct (0 <? _); [|apply deltas_only_nil].
  do 2 (deltas_step; [deltas_step|]).
  destruct (truthy _ && _); [|apply deltas_only_nil].
  match goal with |- context [match ?t with PStr _ => _ | _ => _ end] =>
    destruct t end; try apply deltas_only_lift.
  deltas_step; [|apply deltas_only_nil].
  destruct (String.eqb _ "") eqn:E; [apply deltas_only_nil|].
  apply String.eqb_neq in E. eexists [_]. split; [|reflexivity].
  constructor; [exact E|constructor].
Qed.

Lemma stream_line_deltas (acc : string * pyval) (line : list byte) :
  deltas_only (fst (stream_line acc line)).
Proof.
  unfold stream_line. destruct acc as [buffer tokens].
  deltas_step; [deltas_step|].
  destruct (String.eqb _ ""); [apply deltas_only_nil|].
  destruct (json_loads _); [|apply deltas_only_nil].
  deltas_step; [deltas_step|].
  destruct (eq_str _ "assistant").
  - do 2 (deltas_step; [deltas_step|]).
    deltas_step; [apply observe_content_deltas|].
    do 2 (deltas_step; [deltas_step|]). apply deltas_only_nil.
  - destruct (eq_str _ "result"); [|apply deltas_only_nil].
    do 2 (deltas_step; [deltas_step|]). apply deltas_only_nil.
Qed.

Lemma stream_loop_deltas (lines : list (list byte)) (acc : string * pyval) :
  deltas_only (fst (gfor_each stream_line lines acc)).
Proof.
  revert acc. induction lines as [|line lines IH]; intros acc.
  - apply deltas_only_nil.
  - cbn [gfor_each]. apply deltas_only_gbind; [apply stream_line_deltas|apply IH].
Qed.

(** The whole trace of a spawned run: on normal completion the six kinds
    of event in order and then the wait; when the loop raised, the events
    so far and one error event, and no wait. *)
Lemma send_message_stream_shape (messages : list pydict) (model : string)
    (system : option string) (max_tokens : Z) (session_id : option string)
    (prompt : string) (p : process) :
  _format_messages_as_prompt messages system = Ok prompt ->
  create_subprocess_exec (stream_command prompt model session_id) = Ok p ->
  exists deltas, Forall (fun t => t <> "") deltas /\
    send_message_stream messages model system max_tokens session_id =
    match snd (gfor_each stream_line (stdout_lines p) ("", PInt 0)) with
    | Ok acc =>
        map Yield ([message_start ("msg_" +:+ slice_to 24 uuid4_hex) model;
                    content_block_start]
                   ++ map content_block_delta deltas
                   ++ [content_block_stop; message_delta (snd acc); message_stop])
        ++ [ProcessWait]
    | Raise e =>
        map Yield ([message_start ("msg_" +:+ slice_to 24 uuid4_hex) model;
                    content_block_start]
                   ++ map content_block_delta deltas
                   ++ [error_event match e with
                                   | FileNotFoundError => "Claude Code CLI not found"
                                   | _ => exn_str e
                                   end])
    end.
Proof.
  intros Hfmt Hspawn.
  rewrite (send_message_stream_spawned _ _ _ _ _ _ _ Hfmt Hspawn).
  destruct (stream_loop_deltas (stdout_lines p) ("", PInt 0)) as (deltas & Hne & E).
  exists deltas. split; [exact Hne|]. rewrite E.
  destruct (snd (gfor_each stream_line (stdout_lines p) ("", PInt 0))) as [acc|e].
  - rewrite !map_app, map_map, <- !app_assoc. reflexivity.
  - rewrite !map_app, map_map. destruct e; reflexivity.
Qed.

Lemma events_yields (evs : list pyval) (rest : list effect) :
  events (map Yield evs ++ rest) = evs ++ events rest.
Proof. induction evs as [|ev evs IH]; simpl; [reflexivity|f_equal; exact IH]. Qed.


(** *** Reaping the subprocess *)

Lemma reaps_abandon_completed (evs : list pyval) (n : nat) :
  reaps (abandon_after n (map Yield evs ++ [ProcessWait])) = true
  <-> (List.length evs < n)%nat.
Proof.
  revert n. induction evs as [|ev evs IH]; intros n.
  - destruct n; simpl; split; intros Hn; try reflexivity; try discriminate; lia.
  - destruct n as [|[|n]].
    + simpl. split; [discriminate|lia].
    + simpl. split; [discriminate|lia].
    + change (abandon_after (S (S n)) (map Yield (ev :: evs) ++ [ProcessWait]))
        with (Yield ev :: abandon_after (S n) (map Yield evs ++ [ProcessWait])).
      change (reaps (Yield ev :: ?t)) with (reaps t).
      rewrite IH. simpl. lia.
Qed.

Lemma reaps_abandon_yields (evs : list pyval) (n : nat) :
  reaps (abandon_after n (map Yield evs)) = false.
Proof.
  revert n. induction evs as [|ev evs IH]; intros n; [reflexivity|].
  destruct n as [|[|n]]; try reflexivity.
  change (abandon_after (S (S n)) (map Yield (ev :: evs)))
    with (Yield ev :: abandon_after (S n) (map Yield evs)).
  change (reaps (Yield ev :: ?t)) with (reaps t). apply IH.
Qed.

(** When the stream awaits the exit status. For a spawned subprocess, it
    does so exactly when the loop over the lines ended without an exception
    and the consumer asked for more after the last event; a consumer that
    stops after [n] events, [n] at most the number of events, and a run
    that raised, leave the subprocess unawaited. *)
Theorem stream_wait_only_on_completion (messages : list pydict) (model : string)
    (system : option string) (max_tokens : Z) (session_id : option string)
    (prompt : string) (p : process) (n : nat) :
  _format_messages_as_prompt messages system = Ok prompt ->
  create_subprocess_exec (stream_command prompt model session_id) = Ok p ->
  reaps (abandon_after n
           (send_message_stream messages model system max_tokens session_id)) = true
  <-> (exists acc, snd (gfor_each stream_line (stdout_lines p) ("", PInt 0)) = Ok acc) /\
      (List.length
         (events (send_message_stream messages model system max_tokens session_id))
       < n)%nat.
Proof.
  intros Hfmt Hspawn.
  destruct (send_message_stream_shape _ model _ max_tokens _ _ _ Hfmt Hspawn)
    as (deltas & _ & E).
  rewrite E. clear E.
  destruct (snd (gfor_each stream_line (stdout_lines p) ("", PInt 0))) as [acc|e].
  - rewrite reaps_abandon_completed, events_yields. cbn [events].
    rewrite app_nil_r. split; [intros Hn; split; [eauto|exact Hn] | intros [_ Hn]; exact Hn].
  - rewrite reaps_abandon_yields. split; [discriminate|].
    intros [[acc [=]] _].
Qed.

End StreamProperties.

(** ** The formatter *)

Section FormatterProperties.
Context `{RT : PyRuntime}.

Lemma as_strings_snoc (l : list pyval) (ss : list string) (s : string) :
  as_strings l = Ok ss -> as_strings (l ++ [PStr s]) = Ok (ss ++ [s]).
Proof.
  revert ss. induction l as [|v l IH]; intros ss E.
  - injection E as <-. reflexivity.
  - destruct v; try discriminate. simpl in *.
    destruct (as_strings l) as [ss'|e]; [|discriminate].
    injection E as <-. rewrite (IH ss' eq_refl). reflexivity.
Qed.

Lemma collect_blocks_texts (blocks : list pyval) :
  forallb wf_part blocks = true ->
  forall (text_parts : list pyval) (ss : list string),
    as_strings text_parts = Ok ss ->
    as_strings (fold_left collect_block blocks text_parts)
    = Ok (ss ++ omap spec_part_text blocks).
Proof.
  induction blocks as [|block blocks IH]; intros Hwf text_parts ss E.
  - simpl. rewrite app_nil_r. exact E.
  - simpl in Hwf. apply andb_true_iff in Hwf as [Hb Hwf].
    cbn [fold_left omap list_omap].
    destruct block as [| | | |s| |d]; cbn [collect_block spec_part_text];
      try (apply (IH Hwf); exact E).
    + rewrite (IH Hwf _ (ss ++ [s])); [|apply as_strings_snoc, E].
      rewrite <- app_assoc. reflexivity.
    + simpl in Hb.
      destruct (eq_str (dict_get_default d "type" PNone) "text");
        [|apply (IH Hwf); exact E].
      destruct (dict_get_default d "text" (PStr "")); try discriminate.
      rewrite (IH Hwf _ (ss ++ [s])); [|apply as_strings_snoc, E].
      rewrite <- app_assoc. reflexivity.
Qed.

Lemma message_content_wf (msg : pydict) :
  wf_message msg = true ->
  message_content msg = Ok (PStr (spec_message_text msg)).
Proof.
  unfold wf_message, message_content, spec_message_text.
  intros Hwf. apply andb_true_iff in Hwf as [_ Hwf].
  destruct (dict_get_default msg "content" (PStr "")); try discriminate.
  - reflexivity.
  - unfold py_join. rewrite (collect_blocks_texts l Hwf [] [] eq_refl).
    reflexivity.
Qed.

Lemma format_message_wf (parts : list string) (msg : pydict) :
  wf_message msg = true ->
  format_message parts msg
  = Ok (parts ++ match spec_paragraph msg with Some par => [par] | None => [] end).
Proof.
  intros Hwf. unfold format_message. rewrite (message_content_wf msg Hwf).
  cbn [bind format_value].
  unfold wf_message in Hwf. apply andb_true_iff in Hwf as [Hrole _].
  unfold spec_paragraph, spec_role_label, dict_get_default.
  destruct (dict_get "role" msg) as [role|]; [|discriminate].
  destruct role; cbn [eq_str]; rewrite ?app_nil_r; try reflexivity.
  destruct (String.eqb s "user"); [reflexivity|].
  destruct (String.eqb s "assistant"); [reflexivity|].
  rewrite app_nil_r. reflexivity.
Qed.

Lemma format_loop_wf (messages : list pydict) :
  Forall (fun msg => wf_message msg = true) messages ->
  forall parts : list string,
    for_each format_message messages parts
    = Ok (parts ++ omap spec_paragraph messages).
Proof.
  induction 1 as [|msg messages Hwf _ IH]; intros parts.
  - simpl. rewrite app_nil_r. reflexivity.
  - cbn [for_each]. rewrite (format_message_wf parts msg Hwf). cbn [bind].
    rewrite IH, <- app_assoc. cbn [omap list_omap].
    destruct (spec_paragraph msg); reflexivity.
Qed.

(** C7, as the code has it. For every conversation of the request
    schema's shape and every preamble, the empty preamble counting as none:
    the prompt is the bracketed system paragraph when there is a preamble,
    then one labelled paragraph per user or assistant message in the order
    of the messages, the text parts of a list content joined by line feeds,
    the paragraphs joined by blank lines; other parts and other roles leave
    no trace. *)
Theorem format_messages_refines_spec (messages : list pydict)
    (system : option string) :
  Forall (fun msg => wf_message msg = true) messages ->
  _format_messages_as_prompt messages system
  = Ok (spec_prompt messages (effective_system system)).
Proof.
  intros Hwf. unfold _format_messages_as_prompt, spec_prompt.
  rewrite (format_loop_wf messages Hwf). cbn [bind]. do 2 f_equal.
  unfold effective_system, spec_system_paragraph.
  destruct system as [s|]; [|reflexivity].
  destruct (String.eqb s ""); reflexivity.
Qed.

Lemma message_content_role (msg : pydict) (role : pyval) :
  message_content (("role", role) :: msg) = message_content msg.
Proof. reflexivity. Qed.

(** C10. A message that has no role key is handled as a user message: the
    loop appends a paragraph labelled User for it, and anywhere in a
    conversation it yields the prompt that the same message with the role
    user yields. *)
Theorem missing_role_is_user (msg : pydict) (content : pyval)
    (parts : list string) (before after : list pydict) (system : option string) :
  dict_get "role" msg = None ->
  message_content msg = Ok content ->
  format_message parts msg = Ok (parts ++ ["User: " +:+ format_value content]) /\
  _format_messages_as_prompt [msg] None = Ok ("User: " +:+ format_value content) /\
  _format_messages_as_prompt (before ++ msg :: after) system
  = _format_messages_as_prompt (before ++ (("role", PStr "user") :: msg) :: after) system.
Proof.
  intros Hrole Hcontent.
  assert (Hmsg : forall parts', format_message parts' msg
                 = Ok (parts' ++ ["User: " +:+ format_value content])).
  { intros parts'. unfold format_message, dict_get_default.
    rewrite Hrole, Hcontent. reflexivity. }
  assert (Hsame : forall parts', format_message parts' (("role", PStr "user") :: msg)
                  = format_message parts' msg).
  { intros parts'. rewrite Hmsg. unfold format_message.
    rewrite message_content_role, Hcontent. reflexivity. }
  split; [apply Hmsg|]. split.
  - unfold _format_messages_as_prompt. cbn [for_each]. rewrite Hmsg. reflexivity.
  - unfold _format_messages_as_prompt. f_equal.
    generalize (match system with
                | Some s => if String.eqb s "" then [] else ["[System: " +:+ s +:+ "]"]
                | None => []
                end).
    induction before as [|m before IH]; intros parts'.
    + cbn [app for_each]. rewrite Hsame. reflexivity.
    + cbn [app for_each]. destruct (format_message parts' m); [apply IH|reflexivity].
Qed.

End FormatterProperties.

(** ** The non-streaming call and spawn failure *)

Section CallProperties.
Context `{RT : PyRuntime}.

Lemma build_command_head (prompt output_format : string)
    (session_id model : option string) :
  head (_build_command prompt output_format session_id model) = Some "claude".
Proof.
  unfold _build_command.
  destruct session_id as [sid|], model as [m|];
    repeat match goal with |- context [String.eqb ?a ""] => destruct (String.eqb a "") end;
    reflexivity.
Qed.

Lemma stream_command_head (prompt model : string) (session_id : option string) :
  head (stream_command prompt model session_id) = Some "claude".
Proof.
  unfold stream_command.
  destruct session_id as [sid|];
    repeat match goal with |- context [String.eqb ?a ""] => destruct (String.eqb a "") end;
    reflexivity.
Qed.

(** C4, as the code has it. When the subprocess exits with status zero and
    its stdout decodes to a text that, stripped of leading and trailing
    white space, is not JSON, the call returns a success whose content is
    that stripped text and whose session id is None. *)
Theorem send_message_non_json_fallback (messages : list pydict) (model : string)
    (system : option string) (max_tokens : Z) (session_id : option string)
    (prompt : string) (p : process) (decoded : string) :
  _format_messages_as_prompt messages system = Ok prompt ->
  create_subprocess_exec (_build_command prompt "json" session_id (Some model)) = Ok p ->
  returncode p = 0 ->
  bytes_decode (concat (stdout_lines p)) = Some decoded ->
  json_loads (strip decoded) = None ->
  send_message messages model system max_tokens session_id
  = Ok (PDict [("error", PBool false);
               ("content", PStr (strip decoded));
               ("session_id", PNone)]).
Proof.
  intros Hfmt Hspawn Hrc Hdec Hjson.
  unfold send_message. rewrite Hfmt. cbn [bind].
  unfold send_message_try. rewrite Hspawn. cbn [bind communicate].
  rewrite Hrc. cbn [Z.eqb negb]. unfold decode. rewrite Hdec. cbn [bind].
  rewrite Hjson. reflexivity.
Qed.



End CallProperties.

(** * Concrete runs *)

(** ** The embedding on concrete inputs *)

Example strip_example : strip (" " +:+ nl +:+ " a b " +:+ nl) = "a b".
Proof. reflexivity. Qed.

Example slice_from_example : slice_from 3 "Hello" = "lo".
Proof. reflexivity. Qed.

Example map_model_examples :
  _map_model "claude-3-opus-20240229" = "opus" /\
  _map_model "haiku" = "haiku" /\
  _map_model "" = "sonnet".
Proof. repeat split; vm_compute; reflexivity. Qed.

Example build_command_example :
  _build_command "p" "json" (Some "s1") (Some "gpt-4")
  = ["claude"; "-p"; "p"; "--output-format"; "json";
     "--session-id"; "s1"; "--model"; "sonnet"].
Proof. vm_compute. reflexivity. Qed.

Example format_mixed_conversation :
  @_format_messages_as_prompt (example_runtime no_process)
    mixed_conversation (Some "Be brief")
  = Ok ("[System: Be brief]" +:+ nl +:+ nl +:+ "User: hi" +:+ nl +:+ nl
        +:+ "Assistant: a" +:+ nl +:+ "b").
Proof. reflexivity. Qed.

(** A text block whose text is not a string makes the join raise. *)
Example format_text_block_not_a_string :
  @_format_messages_as_prompt (example_runtime no_process)
    [[("role", PStr "user");
      ("content", PList [PDict [("type", PStr "text"); ("text", PInt 5)]])]] None
  = Raise TypeError.
Proof. reflexivity. Qed.

Example send_message_completion :
  @send_message (example_runtime (Ok completion_process))
    [user_hi] "sonnet" None 4096 None
  = Ok (PDict [("error", PBool false);
               ("content", PStr "hi");
               ("session_id", PNone);
               ("cost_usd", PInt 0);
               ("duration_ms", PInt 0);
               ("usage", PDict [("input_tokens", PInt 1); ("output_tokens", PInt 1)])]).
Proof. vm_compute. reflexivity. Qed.

Example send_message_stream_growing :
  @send_message_stream (example_runtime (Ok growing_process))
    [user_hi] "sonnet" None 4096 None
  = [Yield (message_start "msg_0123456789abcdef01234567" "sonnet");
     Yield content_block_start;
     Yield (content_block_delta "Hel");
     Yield (content_block_delta "lo");
     Yield (content_block_delta ", world");
     Yield content_block_stop;
     Yield (message_delta (PInt 7));
     Yield message_stop;
     ProcessWait].
Proof. vm_compute. reflexivity. Qed.

Example abandon_after_examples :
  abandon_after 0 [Yield PNone; ProcessWait] = [] /\
  abandon_after 1 [Yield PNone; ProcessWait] = [Yield PNone] /\
  abandon_after 2 [Yield PNone; ProcessWait] = [Yield PNone; ProcessWait].
Proof. repeat split. Qed.

(** ** The streaming properties on concrete runs *)

Ltac snapshot_line :=
  unfold assistant_snapshot; do 6 eexists;
  repeat (split; [first [vm_compute; reflexivity | vm_compute; discriminate]|]);
  vm_compute; reflexivity.

Ltac blank_line :=
  eexists; split; [vm_compute; reflexivity | left; vm_compute; reflexivity].

Ltac result_line :=
  eexists; split; [vm_compute; reflexivity|];
  right; right; eexists; split; [vm_compute; reflexivity|];
  split; [vm_compute; reflexivity|];
  intros _; eexists; vm_compute; reflexivity.

Lemma growing_process_observed :
  @observed (example_runtime (Ok growing_process))
    (stdout_lines growing_process) ["Hel"; "Hello"; "Hello, world"].
Proof.
  unfold growing_process, stdout_lines.
  apply observed_snapshot; [snapshot_line|].
  apply observed_other; [blank_line|].
  apply observed_snapshot; [snapshot_line|].
  apply observed_snapshot; [snapshot_line|].
  apply observed_other; [result_line|].
  apply observed_nil.
Qed.

Lemma stream_prefix_snapshots_concat_witness :
  emitted_text
    (@send_message_stream (example_runtime (Ok growing_process))
       [user_hi] "sonnet" None 4096 None)
  = "Hello, world".
Proof.
  apply (@stream_prefix_snapshots_concat (example_runtime (Ok growing_process))
           [user_hi] "sonnet" None 4096 None "User: hi" growing_process
           "Hel" "Hello" "Hello, world").
  - reflexivity.
  - reflexivity.
  - exact growing_process_observed.
  - reflexivity.
  - reflexivity.
Defined.

Lemma bonjour_snapshot :
  @assistant_snapshot (example_runtime (Ok growing_process))
    (line_of (assistant_json "Bonjour")) "Bonjour".
Proof. snapshot_line. Qed.

Lemma stream_line_replaces_buffer_witness :
  exists tokens',
    @stream_line (example_runtime (Ok growing_process)) ("Hello", PInt 0)
      (line_of (assistant_json "Bonjour"))
    = ([Yield (content_block_delta "Bonjour")], Ok ("Bonjour", tokens')).
Proof.
  apply (@stream_line_replaces_buffer (example_runtime (Ok growing_process))
           (line_of (assistant_json "Bonjour")) "Bonjour" "Hello" (PInt 0)).
  - exact bonjour_snapshot.
  - discriminate.
  - discriminate.
  - reflexivity.
Defined.


(** C9. The code at two runs the claim covers: a consumer that takes the
    first event of a clean run and stops leaves the spawned subprocess
    unawaited, and so does a run whose second line is JSON but not an
    object, driven to its end: its trace is the two bootstrap events, one
    delta and the error event, with no wait. *)
Theorem stream_unreaped_runs :
  create_subprocess_exec (PyRuntime := example_runtime (Ok growing_process))
    (stream_command "User: hi" "sonnet" None) = Ok growing_process /\
  abandon_after 1
    (@send_message_stream (example_runtime (Ok growing_process))
       [user_hi] "sonnet" None 4096 None)
  = [Yield (message_start "msg_0123456789abcdef01234567" "sonnet")] /\
  reaps (abandon_after 1
           (@send_message_stream (example_runtime (Ok growing_process))
              [user_hi] "sonnet" None 4096 None)) = false /\
  @send_message_stream (example_runtime (Ok list_line_process))
    [user_hi] "sonnet" None 4096 None
  = [Yield (message_start "msg_0123456789abcdef01234567" "sonnet");
     Yield content_block_start;
     Yield (content_block_delta "Hello");
     Yield (error_event "'list' object has no attribute 'get'")] /\
  reaps (@send_message_stream (example_runtime (Ok list_line_process))
           [user_hi] "sonnet" None 4096 None) = false.
Proof. repeat split; vm_compute; reflexivity. Qed.

Lemma stream_wait_only_on_completion_witness :
  reaps (abandon_after 9
           (@send_message_stream (example_runtime (Ok growing_process))
              [user_hi] "sonnet" None 4096 None)) = true
  <-> (exists acc,
         snd (@gfor_each _ _ (@stream_line (example_runtime (Ok growing_process)))
                (stdout_lines growing_process) ("", PInt 0)) = Ok acc) /\
      (List.length
         (events (@send_message_stream (example_runtime (Ok growing_process))
                    [user_hi] "sonnet" None 4096 None)) < 9)%nat.
Proof.
  apply (@stream_wait_only_on_completion (example_runtime (Ok growing_process))
           [user_hi] "sonnet" None 4096 None "User: hi" growing_process 9).
  - reflexivity.
  - reflexivity.
Defined.

(** ** The formatter and the non-streaming call on concrete runs *)

(** C7 fails on the code for a preamble that is the empty string: it is
    present, and no bracketed paragraph is written. *)
Lemma format_messages_empty_system_counterexample :
  wf_message user_hi = true /\
  @_format_messages_as_prompt (example_runtime no_process) [user_hi] (Some "")
  = Ok "User: hi" /\
  spec_prompt [user_hi] (Some "") = "[System: ]" +:+ nl +:+ nl +:+ "User: hi" /\
  @_format_messages_as_prompt (example_runtime no_process) [user_hi] (Some "")
  <> Ok (spec_prompt [user_hi] (Some "")).
Proof. repeat split; try (vm_compute; reflexivity). vm_compute. discriminate. Qed.

Lemma format_messages_refines_spec_witness :
  @_format_messages_as_prompt (example_runtime no_process)
    mixed_conversation (Some "Be brief")
  = Ok ("[System: Be brief]" +:+ nl +:+ nl +:+ "User: hi" +:+ nl +:+ nl
        +:+ "Assistant: a" +:+ nl +:+ "b") /\
  @_format_messages_as_prompt (example_runtime no_process) mixed_conversation (Some "")
  = Ok ("User: hi" +:+ nl +:+ nl +:+ "Assistant: a" +:+ nl +:+ "b").
Proof.
  split.
  - apply (@format_messages_refines_spec (example_runtime no_process)
             mixed_conversation (Some "Be brief")).
    repeat constructor.
  - apply (@format_messages_refines_spec (example_runtime no_process)
             mixed_conversation (Some "")).
    repeat constructor.
Defined.

Lemma missing_role_is_user_witness :
  @format_message (example_runtime no_process) ["[System: s]"] [("content", PStr "hi")]
  = Ok (["[System: s]"] ++ ["User: hi"]) /\
  @_format_messages_as_prompt (example_runtime no_process) [[("content", PStr "hi")]] None
  = Ok "User: hi" /\
  @_format_messages_as_prompt (example_runtime no_process)
    ([user_hi] ++ [("content", PStr "hi")] :: []) (Some "s")
  = @_format_messages_as_prompt (example_runtime no_process)
      ([user_hi] ++ [("role", PStr "user"); ("content", PStr "hi")] :: []) (Some "s").
Proof.
  apply (@missing_role_is_user (example_runtime no_process)
           [("content", PStr "hi")] (PStr "hi") ["[System: s]"] [user_hi] [] (Some "s")).
  - reflexivity.
  - reflexivity.
Defined.

(** C4 fails on the code: the line feed that ends the output is stripped
    from the returned text, and an output that does not decode makes the
    call a failure. *)
Lemma send_message_non_json_counterexample :
  returncode not_json_process = 0 /\
  ascii_decode (concat (stdout_lines not_json_process)) = Some ("not json" +:+ nl) /\
  example_loads ("not json" +:+ nl) = None /\
  @send_message (example_runtime (Ok not_json_process)) [user_hi] "sonnet" None 4096 None
  = Ok (PDict [("error", PBool false);
               ("content", PStr "not json");
               ("session_id", PNone)]) /\
  returncode undecodable_process = 0 /\
  ascii_decode (concat (stdout_lines undecodable_process)) = None /\
  @send_message (example_runtime (Ok undecodable_process)) [user_hi] "sonnet" None 4096 None
  = Ok (failure "'utf-8' codec can't decode byte 0xff in position 0: invalid start byte").
Proof. repeat split; vm_compute; reflexivity. Qed.

Lemma send_message_non_json_fallback_witness :
  @send_message (example_runtime (Ok not_json_process)) [user_hi] "sonnet" None 4096 None
  = Ok (PDict [("error", PBool false);
               ("content", PStr (strip ("not json" +:+ nl)));
               ("session_id", PNone)]).
Proof.
  apply (@send_message_non_json_fallback (example_runtime (Ok not_json_process))
           [user_hi] "sonnet" None 4096 None "User: hi" not_json_process
           ("not json" +:+ nl)).
  - reflexivity.
  - reflexivity.
  - reflexivity.
  - vm_compute. reflexivity.
  - vm_compute. reflexivity.
Defined.



(** * Further properties of the bridge *)

(** ** The command line *)

(** The streaming call builds its command inline; it is the command of
    [_build_command] for the format stream-json, with the flag --verbose
    inserted after the format: same prompt, same session arguments, same
    mapped model. *)
Theorem stream_command_is_build_command (prompt model : string)
    (session_id : option string) :
  stream_command prompt model session_id
  = take 5 (_build_command prompt "stream-json" session_id (Some model))
    ++ ["--verbose"]
    ++ drop 5 (_build_command prompt "stream-json" session_id (Some model)).
Proof.
  unfold stream_command, _build_command.
  destruct session_id as [sid|]; [destruct (String.eqb sid "")|];
    destruct (String.eqb model ""); reflexivity.
Qed.

(** Whatever the prompt, the session id and the model are, the prompt is
    the third argument, alone and unchanged, and a model argument, when
    there is one, is a canonical name at the end of the command. *)
Theorem build_command_arguments (prompt output_format : string)
    (session_id model : option string) :
  _build_command prompt output_format session_id model !! 2%nat = Some prompt /\
  take 5 (_build_command prompt output_format session_id model)
  = ["claude"; "-p"; prompt; "--output-format"; output_format] /\
  match model with
  | Some m =>
      if String.eqb m "" then
        _build_command prompt output_format session_id model
        = _build_command prompt output_format session_id None
      else
        exists front name,
          _build_command prompt output_format session_id model
          = front ++ ["--model"; name] /\
          name ∈ canonical_names /\
          front = _build_command prompt output_format session_id None
  | None => True
  end.
Proof.
  split; [|split].
  - unfold _build_command.
    destruct session_id as [sid|], model as [m|];
      repeat match goal with |- context [String.eqb ?a ""] => destruct (String.eqb a "") end;
      reflexivity.
  - unfold _build_command.
    destruct session_id as [sid|], model as [m|];
      repeat match goal with |- context [String.eqb ?a ""] => destruct (String.eqb a "") end;
      reflexivity.
  - destruct model as [m|]; [|exact I].
    unfold _build_command.
    destruct (String.eqb m "") eqn:Em; [reflexivity|].
    eexists _, (_map_model m). split; [reflexivity|]. split; [|reflexivity].
    unfold _map_model.
    destruct (MODEL_MAPPING !! m) as [v|] eqn:E; simpl.
    + exact (MODEL_MAPPING_values _ _ E).
    + unfold canonical_names. set_solver.
Qed.

(** ** The non-streaming call *)

Section CallFurther.
Context `{RT : PyRuntime}.

Lemma send_message_try_normalized (cmd : list string) (r : pyval) :
  send_message_try cmd = Ok r ->
  (exists message, r = failure message) \/
  (exists content session rest,
     r = PDict (("error", PBool false) :: ("content", content)
                :: ("session_id", session) :: rest)).
Proof.
  unfold send_message_try.
  destruct (create_subprocess_exec cmd) as [p|e]; [|discriminate].
  cbn [bind communicate].
  destruct (negb (returncode p =? 0)).
  - destruct (match stderr p with [] => Ok "Unknown error" | _ => decode (stderr p) end)
      as [msg|e]; [|discriminate].
    intros [= <-]. left. eauto.
  - destruct (decode (concat (stdout_lines p))) as [decoded|e]; [|discriminate].
    cbn [bind].
    destruct (json_loads (strip decoded)) as [v|].
    + destruct v; try discriminate. cbn [py_get bind].
      intros [= <-]. right. eauto.
    + intros [= <-]. right. eauto.
Qed.

(** The call raises only what the formatter raises, before anything is
    spawned. Otherwise it returns a dict that is either a failure (error
    True and a message) or a success (error False, then content and
    session_id): a spawn failure, a non-zero exit, bytes that do not decode
    and JSON of the wrong shape all end as a returned failure. *)
Theorem send_message_normalized (messages : list pydict) (model : string)
    (system : option string) (max_tokens : Z) (session_id : option string) :
  match send_message messages model system max_tokens session_id with
  | Raise e => _format_messages_as_prompt messages system = Raise e
  | Ok r =>
      (exists prompt, _format_messages_as_prompt messages system = Ok prompt) /\
      ((exists message, r = failure message) \/
       (exists content session rest,
          r = PDict (("error", PBool false) :: ("content", content)
                     :: ("session_id", session) :: rest)))
  end.
Proof.
  unfold send_message.
  destruct (_format_messages_as_prompt messages system) as [prompt|e];
    [|reflexivity].
  cbn [bind].
  destruct (send_message_try _) as [r|e] eqn:E.
  - split; [eauto|]. exact (send_message_try_normalized _ _ E).
  - split; [eauto|]. left. destruct e; simpl; eauto.
Qed.

(** With exit status zero and an output that is JSON but not an object, the
    call is a failure carrying the text of the AttributeError: the raw-text
    fallback is for output that is not JSON only. *)
Theorem send_message_json_not_object (messages : list pydict) (model : string)
    (system : option string) (max_tokens : Z) (session_id : option string)
    (prompt : string) (p : process) (decoded : string) (v : pyval) :
  _format_messages_as_prompt messages system = Ok prompt ->
  create_subprocess_exec (_build_command prompt "json" session_id (Some model)) = Ok p ->
  returncode p = 0 ->
  bytes_decode (concat (stdout_lines p)) = Some decoded ->
  json_loads (strip decoded) = Some v ->
  (forall d, v <> PDict d) ->
  send_message messages model system max_tokens session_id
  = Ok (failure (exn_str AttributeError)).
Proof.
  intros Hfmt Hspawn Hrc Hdec Hjson Hv.
  unfold send_message. rewrite Hfmt. cbn [bind].
  unfold send_message_try. rewrite Hspawn. cbn [bind communicate].
  rewrite Hrc. cbn [Z.eqb negb]. unfold decode. rewrite Hdec. cbn [bind].
  rewrite Hjson.
  destruct v; try reflexivity. exfalso. exact (Hv d eq_refl).
Qed.

(** With exit status zero and an output that is a JSON object, the call is
    a success that passes the fields of the object through, each with its
    default when the object lacks it: result "", session_id None,
    total_cost_usd 0, duration_ms 0, usage the empty dict. *)
Theorem send_message_json_object (messages : list pydict) (model : string)
    (system : option string) (max_tokens : Z) (session_id : option string)
    (prompt : string) (p : process) (decoded : string) (d : pydict) :
  _format_messages_as_prompt messages system = Ok prompt ->
  create_subprocess_exec (_build_command prompt "json" session_id (Some model)) = Ok p ->
  returncode p = 0 ->
  bytes_decode (concat (stdout_lines p)) = Some decoded ->
  json_loads (strip decoded) = Some (PDict d) ->
  send_message messages model system max_tokens session_id
  = Ok (PDict [("error", PBool false);
               ("content", default (PStr "") (dict_get "result" d));
               ("session_id", default PNone (dict_get "session_id" d));
               ("cost_usd", default (PInt 0) (dict_get "total_cost_usd" d));
               ("duration_ms", default (PInt 0) (dict_get "duration_ms" d));
               ("usage", default (PDict []) (dict_get "usage" d))]).
Proof.
  intros Hfmt Hspawn Hrc Hdec Hjson.
  unfold send_message. rewrite Hfmt. cbn [bind].
  unfold send_message_try. rewrite Hspawn. cbn [bind communicate].
  rewrite Hrc. cbn [Z.eqb negb]. unfold decode. rewrite Hdec. cbn [bind].
  rewrite Hjson. cbn [py_get bind]. unfold dict_get_default.
  repeat match goal with |- context [dict_get ?k d] => destruct (dict_get k d) end;
    reflexivity.
Qed.

(** A spawn that raises anything but FileNotFoundError is reported with
    the text of the exception on both paths: a returned failure, a single
    error event. *)
Theorem spawn_error_is_reported (messages : list pydict) (model : string)
    (system : option string) (max_tokens : Z) (session_id : option string)
    (prompt : string) (e : exn) :
  _format_messages_as_prompt messages system = Ok prompt ->
  (forall cmd, head cmd = Some "claude" -> create_subprocess_exec cmd = Raise e) ->
  e <> FileNotFoundError ->
  send_message messages model system max_tokens session_id
  = Ok (failure (exn_str e)) /\
  send_message_stream messages model system max_tokens session_id
  = [Yield (error_event (exn_str e))].
Proof.
  intros Hfmt Hspawn He. split.
  - unfold send_message. rewrite Hfmt. cbn [bind].
    unfold send_message_try.
    rewrite (Hspawn _ (build_command_head prompt "json" session_id (Some model))).
    destruct e; try reflexivity. congruence.
  - unfold send_message_stream. rewrite Hfmt.
    unfold send_message_stream_try.
    rewrite (Hspawn _ (stream_command_head prompt model session_id)).
    destruct e; try reflexivity. congruence.
Qed.

End CallFurther.

Lemma send_message_json_not_object_witness :
  @send_message (example_runtime (Ok list_output_process))
    [user_hi] "sonnet" None 4096 None
  = Ok (failure "'list' object has no attribute 'get'").
Proof.
  apply (@send_message_json_not_object (example_runtime (Ok list_output_process))
           [user_hi] "sonnet" None 4096 None "User: hi" list_output_process
           ("[1]" +:+ nl) (PList [PInt 1])).
  - reflexivity.
  - reflexivity.
  - reflexivity.
  - vm_compute. reflexivity.
  - vm_compute. reflexivity.
  - discriminate.
Defined.

Lemma send_message_json_object_witness :
  @send_message (example_runtime (Ok completion_process))
    [user_hi] "sonnet" None 4096 None
  = Ok (PDict [("error", PBool false);
               ("content", PStr "hi");
               ("session_id", PNone);
               ("cost_usd", PInt 0);
               ("duration_ms", PInt 0);
               ("usage", PDict [("input_tokens", PInt 1); ("output_tokens", PInt 1)])]).
Proof.
  apply (@send_message_json_object (example_runtime (Ok completion_process))
           [user_hi] "sonnet" None 4096 None "User: hi" completion_process
           (completion_json +:+ nl)
           [("result", PStr "hi");
            ("usage", PDict [("input_tokens", PInt 1); ("output_tokens", PInt 1)])]).
  - reflexivity.
  - reflexivity.
  - reflexivity.
  - vm_compute. reflexivity.
  - vm_compute. reflexivity.
Defined.

Lemma spawn_error_is_reported_witness :
  @send_message (example_runtime denied_process) [user_hi] "sonnet" None 4096 None
  = Ok (failure "error") /\
  @send_message_stream (example_runtime denied_process) [user_hi] "sonnet" None 4096 None
  = [Yield (error_event "error")].
Proof.
  apply (@spawn_error_is_reported (example_runtime denied_process)
           [user_hi] "sonnet" None 4096 None "User: hi"
           (OtherError "PermissionError")).
  - reflexivity.
  - intros cmd _. reflexivity.
  - discriminate.
Defined.

(** ** The streaming call *)

Section StreamFurther.
Context `{RT : PyRuntime}.

Lemma stream_line_ignored (line : list byte) (acc : string * pyval) :
  ignored_line line -> stream_line acc line = ([], Ok acc).
Proof.
  intros (decoded & Hd & Hcase). destruct acc as [buffer tokens].
  unfold stream_line, decode. rewrite Hd, gbind_lift_ok.
  destruct (String.eqb (strip decoded) "") eqn:Eb; [reflexivity|].
  destruct Hcase as [Hs | Hj].
  - apply String.eqb_neq in Eb. contradiction.
  - rewrite Hj. reflexivity.
Qed.

(** A blank line and a line that is not JSON are skipped: the loop does
    what it does on the output without that line, whatever comes before
    and after it. *)
Theorem stream_skips_ignored_line (line : list byte)
    (before after : list (list byte)) (acc : string * pyval) :
  ignored_line line ->
  gfor_each stream_line (before ++ line :: after) acc
  = gfor_each stream_line (before ++ after) acc.
Proof.
  intros Hline. revert acc.
  induction before as [|l before IH]; intros acc.
  - cbn [app gfor_each]. rewrite (stream_line_ignored line acc Hline).
    apply gbind_lift_ok.
  - cbn [app gfor_each].
    destruct (stream_line acc l) as [effs [acc'|e]]; [|reflexivity].
    rewrite !gbind_ok, IH. reflexivity.
Qed.

Lemma last_snapshot_cons (buffer text : string) (texts : list string) :
  last_snapshot buffer (text :: texts)
  = last_snapshot (if String.eqb text "" then buffer else text) texts.
Proof. reflexivity. Qed.

(** The loop on any snapshots: the buffer ends as the last snapshot that
    is not empty, and what was shown before, followed by the deltas, ends
    with that buffer. *)
Lemma stream_loop_last_snapshot (lines : list (list byte)) (texts : list string) :
  observed lines texts ->
  forall (shown buffer : string) (tokens : pyval),
    exists effs tokens' shown',
      gfor_each stream_line lines (buffer, tokens)
        = (effs, Ok (last_snapshot buffer texts, tokens')) /\
      (shown +:+ buffer) +:+ emitted_text effs
        = shown' +:+ last_snapshot buffer texts.
Proof.
  induction 1 as [| line lines texts Hline _ IH
                  | line text lines texts Hline _ IH];
    intros shown buffer tokens.
  - exists [], tokens, shown. split; [reflexivity|apply app_empty_r].
  - destruct (stream_line_other line buffer tokens Hline) as [tokens1 E1].
    destruct (IH shown buffer tokens1) as (effs & tokens' & shown' & E & Htext).
    exists effs, tokens', shown'. split; [|exact Htext].
    cbn [gfor_each]. rewrite E1, gbind_ok, E. reflexivity.
  - destruct (stream_line_snapshot line text buffer tokens Hline) as [tokens1 E1].
    rewrite last_snapshot_cons.
    destruct (String.eqb text "") eqn:Eempty.
    + cbn [orb] in E1.
      destruct (IH shown buffer tokens1) as (effs & tokens' & shown' & E & Htext).
      exists effs, tokens', shown'. split; [|exact Htext].
      cbn [gfor_each]. rewrite E1, gbind_ok, E. reflexivity.
    + cbn [orb] in E1. destruct (String.eqb text buffer) eqn:Esame.
      * apply String.eqb_eq in Esame. subst text.
        destruct (IH shown buffer tokens1) as (effs & tokens' & shown' & E & Htext).
        exists effs, tokens', shown'. split; [|exact Htext].
        cbn [gfor_each]. rewrite E1, gbind_ok, E. reflexivity.
      * cbv zeta in E1.
        assert (Hshown : exists shown1,
                  forall rest, (shown +:+ buffer)
                    +:+ ((if startswith text buffer
                          then slice_from (String.length buffer) text
                          else text) +:+ rest)
                  = (shown1 +:+ text) +:+ rest).
        { destruct (startswith text buffer) eqn:Hstart.
          - exists shown. intros rest.
            rewrite <- (startswith_slice text buffer Hstart) at 2.
            rewrite !str_app_assoc. reflexivity.
          - exists (shown +:+ buffer). intros rest.
            rewrite !str_app_assoc. reflexivity. }
        destruct Hshown as [shown1 Hshown].
        destruct (IH shown1 text tokens1) as (effs & tokens' & shown' & E & Htext).
        eexists _, tokens', shown'. split.
        -- cbn [gfor_each]. rewrite E1, gbind_ok, E. reflexivity.
        -- cbn [fst]. rewrite emitted_text_app.
           match goal with
           | |- _ +:+ (emitted_text (if String.eqb ?new "" then _ else _) +:+ _) = _ =>
               assert (Hdelta : emitted_text
                         (if String.eqb new "" then []
                          else [Yield (content_block_delta new)]) = new)
           end.
           { clear. match goal with
                    | |- context [String.eqb ?new ""] =>
                        destruct (String.eqb new "") eqn:Ee;
                        [apply String.eqb_eq in Ee; rewrite Ee|]; reflexivity
                    end. }
           rewrite Hdelta, Hshown. exact Htext.
Qed.

(** Whatever the snapshots are, extending one another or not, the text
    assembled from the content deltas of the stream ends with the last
    snapshot that is not empty. *)
Theorem stream_text_ends_with_last_snapshot (messages : list pydict)
    (model : string) (system : option string) (max_tokens : Z)
    (session_id : option string) (prompt : string) (p : process)
    (texts : list string) :
  _format_messages_as_prompt messages system = Ok prompt ->
  create_subprocess_exec (stream_command prompt model session_id) = Ok p ->
  observed (stdout_lines p) texts ->
  exists shown,
    emitted_text (send_message_stream messages model system max_tokens session_id)
    = shown +:+ last_snapshot "" texts.
Proof.
  intros Hfmt Hspawn Hobs.
  rewrite (send_message_stream_spawned _ _ _ _ _ _ _ Hfmt Hspawn).
  destruct (stream_loop_last_snapshot _ _ Hobs "" "" (PInt 0))
    as (effs & tokens' & shown & E & Htext).
  exists shown. rewrite E. cbn [fst snd].
  change (Yield ?a :: Yield ?b :: ?l) with ([Yield a; Yield b] ++ l).
  rewrite !emitted_text_app. rewrite !app_nil in Htext. rewrite Htext.
  simpl. apply app_empty_r.
Qed.

Lemma gbind_assoc {A B C : Type} (m : gen A) (k : A -> gen B) (k' : B -> gen C) :
  gbind (gbind m k) k' = gbind m (fun a => gbind (k a) k').
Proof.
  destruct m as [effs [a|e]]; [|reflexivity].
  rewrite !gbind_ok. destruct (k a) as [effs1 [b|e]]; cbn [fst snd].
  - rewrite !gbind_ok. cbn [fst snd]. rewrite app_assoc. reflexivity.
  - reflexivity.
Qed.

Lemma gfor_each_app {A S : Type} (step : S -> A -> gen S) (l1 l2 : list A) (s : S) :
  gfor_each step (l1 ++ l2) s = gbind (gfor_each step l1 s) (gfor_each step l2).
Proof.
  revert s. induction l1 as [|a l1 IH]; intros s.
  - cbn [app gfor_each]. unfold gret. rewrite gbind_ok.
    destruct (gfor_each step l2 s); reflexivity.
  - cbn [app gfor_each]. rewrite gbind_assoc.
    destruct (step s a) as [effs [s'|e]]; [|reflexivity].
    rewrite !gbind_ok, IH. reflexivity.
Qed.

Lemma stream_line_result (line : list byte) (buffer : string) (tokens v : pyval) :
  result_event_line line v ->
  stream_line (buffer, tokens) line = ([], Ok (buffer, v)).
Proof.
  intros (decoded & event & usage & Hd & Hne & Hj & Ht & Hu & Hv).
  unfold stream_line, decode. rewrite Hd, gbind_lift_ok.
  apply String.eqb_neq in Hne. rewrite Hne, Hj.
  change (py_get (PDict event) "type" (PStr ""))
    with (Ok (dict_get_default event "type" (PStr ""))).
  rewrite gbind_lift_ok, Ht.
  change (eq_str (PStr "result") "assistant") with false.
  change (eq_str (PStr "result") "result") with true. cbv iota.
  change (py_get (PDict event) "usage" (PDict []))
    with (Ok (dict_get_default event "usage" (PDict []))).
  rewrite gbind_lift_ok, Hu.
  change (py_get (PDict usage) "output_tokens" tokens)
    with (Ok (dict_get_default usage "output_tokens" tokens)).
  rewrite gbind_lift_ok. unfold dict_get_default. rewrite Hv. reflexivity.
Qed.

(** When the last line of the output is a result event whose usage has
    output_tokens, and the lines before it raise nothing, the stream ends
    with content_block_stop, a message_delta that reports these output
    tokens, whatever the assistant events had said, and message_stop. *)
Theorem stream_reports_result_tokens (messages : list pydict) (model : string)
    (system : option string) (max_tokens : Z) (session_id : option string)
    (prompt : string) (p : process) (before : list (list byte))
    (line : list byte) (effs : list effect) (acc : string * pyval) (v : pyval) :
  _format_messages_as_prompt messages system = Ok prompt ->
  create_subprocess_exec (stream_command prompt model session_id) = Ok p ->
  stdout_lines p = before ++ [line] ->
  gfor_each stream_line before ("", PInt 0) = (effs, Ok acc) ->
  result_event_line line v ->
  exists evs,
    events (send_message_stream messages model system max_tokens session_id)
    = evs ++ [content_block_stop; message_delta v; message_stop].
Proof.
  intros Hfmt Hspawn Hlines Hloop Hline.
  destruct (send_message_stream_shape _ model _ max_tokens _ _ _ Hfmt Hspawn)
    as (deltas & _ & E).
  rewrite E, Hlines, gfor_each_app, Hloop, gbind_ok. clear E.
  destruct acc as [buffer tokens]. cbn [gfor_each].
  rewrite (stream_line_result line buffer tokens v Hline), gbind_ok.
  cbn [fst snd gret]. rewrite events_yields. cbn [events].
  rewrite app_nil_r.
  exists ([message_start ("msg_" +:+ slice_to 24 uuid4_hex) model; content_block_start]
          ++ map content_block_delta deltas).
  rewrite <- app_assoc. reflexivity.
Qed.




End StreamFurther.

Ltac non_json_line :=
  eexists; split; [vm_compute; reflexivity | right; left; vm_compute; reflexivity].

Lemma replacing_process_observed :
  @observed (example_runtime (Ok replacing_process))
    (stdout_lines replacing_process) ["Hello"; "Bonjour"].
Proof.
  unfold replacing_process, stdout_lines.
  apply observed_snapshot; [snapshot_line|].
  apply observed_snapshot; [snapshot_line|].
  apply observed_other; [non_json_line|].
  apply observed_other; [result_line|].
  apply observed_nil.
Qed.

Lemma not_json_line_ignored :
  @ignored_line (example_runtime (Ok replacing_process)) (line_of "not json").
Proof. eexists. split; [vm_compute; reflexivity | right; vm_compute; reflexivity]. Qed.

Lemma result_json_line :
  @result_event_line (example_runtime (Ok replacing_process))
    (line_of result_json) (PInt 7).
Proof.
  unfold result_event_line. do 3 eexists.
  repeat (split; [first [vm_compute; reflexivity | vm_compute; discriminate]|]).
  vm_compute. reflexivity.
Qed.

Lemma stream_skips_ignored_line_witness :
  @gfor_each _ _ (@stream_line (example_runtime (Ok replacing_process)))
    ([line_of (assistant_json "Hello")] ++ line_of "not json" :: [line_of result_json])
    ("", PInt 0)
  = @gfor_each _ _ (@stream_line (example_runtime (Ok replacing_process)))
      ([line_of (assistant_json "Hello")] ++ [line_of result_json])
      ("", PInt 0).
Proof.
  apply (@stream_skips_ignored_line (example_runtime (Ok replacing_process))
           (line_of "not json") [line_of (assistant_json "Hello")]
           [line_of result_json] ("", PInt 0)).
  exact not_json_line_ignored.
Defined.

Lemma stream_text_ends_with_last_snapshot_witness :
  exists shown,
    emitted_text
      (@send_message_stream (example_runtime (Ok replacing_process))
         [user_hi] "sonnet" None 4096 None)
    = shown +:+ last_snapshot "" ["Hello"; "Bonjour"].
Proof.
  apply (@stream_text_ends_with_last_snapshot (example_runtime (Ok replacing_process))
           [user_hi] "sonnet" None 4096 None "User: hi" replacing_process
           ["Hello"; "Bonjour"]).
  - reflexivity.
  - reflexivity.
  - exact replacing_process_observed.
Defined.

Lemma stream_reports_result_tokens_witness :
  exists evs,
    events (@send_message_stream (example_runtime (Ok replacing_process))
              [user_hi] "sonnet" None 4096 None)
    = evs ++ [content_block_stop; message_delta (PInt 7); message_stop].
Proof.
  apply (@stream_reports_result_tokens (example_runtime (Ok replacing_process))
           [user_hi] "sonnet" None 4096 None "User: hi" replacing_process
           [line_of (assistant_json "Hello");
            line_of (assistant_json "Bonjour");
            line_of "not json"]
           (line_of result_json)
           [Yield (content_block_delta "Hello"); Yield (content_block_delta "Bonjour")]
           ("Bonjour", PInt 0) (PInt 7)).
  - reflexivity.
  - reflexivity.
  - reflexivity.
  - vm_compute. reflexivity.
  - exact result_json_line.
Defined.


Example send_message_stream_reader_raises :
  @send_message_stream_reading (example_runtime (Ok replacing_process))
    (ReaderRaises (OtherError "ValueError")) [user_hi] "sonnet" None 4096 None
  = Finished [Yield (message_start "msg_0123456789abcdef01234567" "sonnet");
              Yield content_block_start;
              Yield (content_block_delta "Hello");
              Yield (content_block_delta "Bonjour");
              Yield (error_event "error")].
Proof. vm_compute. reflexivity. Qed.

Example send_message_stream_replacing :
  @send_message_stream (example_runtime (Ok replacing_process))
    [user_hi] "sonnet" None 4096 None
  = [Yield (message_start "msg_0123456789abcdef01234567" "sonnet");
     Yield content_block_start;
     Yield (content_block_delta "Hello");
     Yield (content_block_delta "Bonjour");
     Yield content_block_stop;
     Yield (message_delta (PInt 7));
     Yield message_stop;
     ProcessWait].
Proof. vm_compute. reflexivity. Qed.

(** * Properties of the server *)

Section ServerProperties.
Context `{RT : PyRuntime} `{SRT : ServerRuntime}.

(** ** From a validated request to the prompt *)

Lemma ContentBlock_dump_wf (block : models.ContentBlock) :
  wf_part (models.ContentBlock_dump block) = true.
Proof. destruct block; reflexivity. Qed.

Lemma Message_dump_wf (msg : models.Message) :
  wf_message (models.Message_dump msg) = true.
Proof.
  destruct msg as [r c]. unfold wf_message, models.Message_dump.
  cbn [models.role models.content].
  assert (Hrole : dict_get "role"
            [("role", models.Role_dump r); ("content", models.Content_dump c)]
          = Some (models.Role_dump r)) by reflexivity.
  assert (Hcontent : dict_get_default
            [("role", models.Role_dump r); ("content", models.Content_dump c)]
            "content" (PStr "") = models.Content_dump c) by reflexivity.
  rewrite Hrole, Hcontent. cbn [andb]. clear Hrole Hcontent.
  destruct c as [s|blocks]; cbn [models.Content_dump]; [reflexivity|].
  induction blocks as [|b blocks IH]; [reflexivity|].
  cbn [map forallb]. rewrite ContentBlock_dump_wf, IH. reflexivity.
Qed.

Lemma dumped_messages_wf (msgs : list models.Message) :
  Forall (fun msg => wf_message msg = true) (map models.Message_dump msgs).
Proof.
  induction msgs as [|m msgs IH]; constructor; [apply Message_dump_wf|exact IH].
Qed.

Lemma dumped_messages_format_ok (msgs : list models.Message) (system : option string) :
  exists prompt,
    _format_messages_as_prompt (map models.Message_dump msgs) system = Ok prompt.
Proof.
  unfold _format_messages_as_prompt.
  rewrite (format_loop_wf _ (dumped_messages_wf msgs)). cbn [bind]. eauto.
Qed.

(** For the messages of a validated request the formatter never raises:
    the prompt is the one of the specification's formatter, an empty
    preamble counting as none. *)
Theorem dumped_messages_prompt (msgs : list models.Message) (system : option string) :
  _format_messages_as_prompt (map models.Message_dump msgs) system
  = Ok (spec_prompt (map models.Message_dump msgs) (effective_system system)).
Proof.
  unfold _format_messages_as_prompt, spec_prompt.
  rewrite (format_loop_wf _ (dumped_messages_wf msgs)). cbn [bind].
  do 2 f_equal. unfold effective_system, spec_system_paragraph.
  destruct system as [s|]; [|reflexivity].
  destruct (String.eqb s ""); reflexivity.
Qed.

(** ** The messages endpoint *)

Lemma send_message_dumped (msgs : list models.Message) (model : string)
    (system : option string) (max_tokens : Z) (session_id : option string) :
  (exists message,
     send_message (map models.Message_dump msgs) model system max_tokens session_id
     = Ok (failure message)) \/
  (exists content session rest,
     send_message (map models.Message_dump msgs) model system max_tokens session_id
     = Ok (PDict (("error", PBool false) :: ("content", content)
                  :: ("session_id", session) :: rest))).
Proof.
  unfold send_message.
  destruct (dumped_messages_format_ok msgs system) as [prompt ->]. cbn [bind].
  destruct (send_message_try _) as [r|e] eqn:E.
  - destruct (send_message_try_normalized _ _ E) as [[m ->] | (c & ss & rest & ->)];
      [left|right]; eauto.
  - left. destruct e; simpl; eauto.
Qed.

(** What the messages endpoint can do. Without a key, or with the empty
    key, it raises 401 whatever the request. With a key and a streaming
    request it returns the event stream. With a key and a plain request it
    raises 500 carrying the message of the bridge's failure, or returns a
    message whose text is the content the bridge returned (the text of a
    dict content), with the model of the request and the token counts of
    the server. No other exception leaves it. *)
Theorem create_message_outcomes (request : models.MessagesRequest)
    (x_api_key : option string) (response_uuid_hex : string) :
  let messages := map models.Message_dump (models.messages request) in
  let bridge := send_message messages (models.model request)
                  (models.system request) (models.max_tokens request) None in
  match create_message request x_api_key response_uuid_hex with
  | HTTPException status_code detail =>
      (validate_api_key x_api_key = false /\ status_code = 401 /\
       detail = PStr "Invalid API key") \/
      (validate_api_key x_api_key = true /\ models.stream request = false /\
       status_code = 500 /\
       exists message, bridge = Ok (failure message) /\ detail = PStr message)
  | Respond (StreamingResponse frames) =>
      validate_api_key x_api_key = true /\ models.stream request = true /\
      frames = stream_response
                 (send_message_stream messages (models.model request)
                    (models.system request) (models.max_tokens request) None)
  | Respond (JSONResponse body) =>
      validate_api_key x_api_key = true /\ models.stream request = false /\
      exists content session rest,
        bridge = Ok (PDict (("error", PBool false) :: ("content", content)
                            :: ("session_id", session) :: rest)) /\
        let text :=
          format_value match content with
                       | PDict d => dict_get_default d "text" (PStr (format_value content))
                       | _ => content
                       end in
        body = models.MessagesResponse
                 ("msg_" +:+ slice_to 24 response_uuid_hex) text (models.model request)
                 (py_sum (map (fun msg =>
                            count_tokens
                              (format_value (dict_get_default msg "content" (PStr ""))))
                          messages))
                 (count_tokens text)
  | Unhandled _ => False
  end.
Proof.
  cbv zeta. unfold create_message.
  destruct (validate_api_key x_api_key) eqn:Hkey; cbn [negb]; [|left; auto].
  destruct (models.stream request) eqn:Hstream; [auto|].
  unfold create_message_complete.
  destruct (send_message_dumped (models.messages request) (models.model request)
              (models.system request) (models.max_tokens request) None)
    as [[message E] | (content & session & rest & E)]; rewrite E; cbn [bind].
  - right. repeat split; eauto.
  - change (py_get (PDict (("error", PBool false) :: ("content", content)
                           :: ("session_id", session) :: rest)) "error" PNone)
      with (Ok (PBool false)).
    cbn [bind truthy].
    change (py_get (PDict (("error", PBool false) :: ("content", content)
                           :: ("session_id", session) :: rest)) "content" (PStr ""))
      with (Ok content).
    cbn [bind]. repeat split. exists content, session, rest. split; reflexivity.
Qed.

(** With a key, a plain request and no executable claude, the endpoint
    raises 500 with the bridge's fixed message, which the exception handler
    sends as an error of type api_error; without a key the 401 is sent as
    an invalid_request_error. *)
Theorem create_message_cli_missing (request : models.MessagesRequest)
    (x_api_key : option string) (response_uuid_hex : string) :
  validate_api_key x_api_key = true ->
  models.stream request = false ->
  (forall cmd, head cmd = Some "claude" ->
               create_subprocess_exec cmd = Raise FileNotFoundError) ->
  create_message request x_api_key response_uuid_hex
  = HTTPException 500 (PStr "Claude Code CLI not found. Please install it first.") /\
  http_exception_handler 500
    (PStr "Claude Code CLI not found. Please install it first.")
  = (500, PDict [("type", PStr "error");
                 ("error",
                  PDict [("type", PStr "api_error");
                         ("message",
                          PStr "Claude Code CLI not found. Please install it first.")])]) /\
  create_message request None response_uuid_hex
  = HTTPException 401 (PStr "Invalid API key") /\
  http_exception_handler 401 (PStr "Invalid API key")
  = (401, PDict [("type", PStr "error");
                 ("error",
                  PDict [("type", PStr "invalid_request_error");
                         ("message", PStr "Invalid API key")])]).
Proof.
  intros Hkey Hstream Hspawn.
  split; [|split; [reflexivity|split; reflexivity]].
  unfold create_message. rewrite Hkey, Hstream. cbn [negb].
  unfold create_message_complete, send_message.
  destruct (dumped_messages_format_ok (models.messages request) (models.system request))
    as [prompt ->].
  cbn [bind]. unfold send_message_try.
  rewrite (Hspawn _ (build_command_head prompt "json" None
                       (Some (models.model request)))).
  reflexivity.
Qed.

(** ** The event stream of the messages endpoint *)

Lemma sse_frame_typed (types : list string) (event : pyval) :
  event_type_in types event ->
  sse_frame event
  = Ok ("event: " +:+ event_type event +:+ nl
        +:+ "data: " +:+ json_dumps event +:+ nl +:+ nl).
Proof.
  intros (d & t & -> & Ht & _). unfold sse_frame, py_getitem, event_type.
  rewrite Ht. reflexivity.
Qed.

Lemma stream_response_yields (types : list string) (evs : list pyval)
    (tail : list effect) :
  Forall (event_type_in types) evs ->
  tail = [] \/ tail = [ProcessWait] ->
  stream_response (map Yield evs ++ tail)
  = map (fun ev => Yield (PStr ("event: " +:+ event_type ev +:+ nl
                                +:+ "data: " +:+ json_dumps ev +:+ nl +:+ nl))) evs
    ++ tail.
Proof.
  intros Htyped Htail. induction Htyped as [|ev evs Hev _ IH].
  - destruct Htail as [-> | ->]; reflexivity.
  - cbn [map app stream_response]. rewrite (sse_frame_typed types ev Hev), IH.
    reflexivity.
Qed.

Lemma deltas_typed (deltas : list string) :
  Forall (event_type_in stream_event_types) (map content_block_delta deltas).
Proof.
  apply Forall_forall. intros ev Hev.
  apply list_elem_of_fmap in Hev as (t & -> & _).
  eexists _, _. split; [reflexivity|]. split; [reflexivity|].
  unfold stream_event_types. set_solver.
Qed.

Ltac event_typed :=
  eexists _, _; split; [reflexivity|]; split; [reflexivity|];
  unfold stream_event_types; set_solver.

(** For a validated request the event stream never raises: every event the
    bridge yields has one of the seven types of the protocol, and the
    response has one frame per event, in order, made of that type and of
    the JSON text of the event; the wait for the subprocess, when the
    bridge does it, is kept. *)
Theorem stream_response_frames (msgs : list models.Message) (model : string)
    (system : option string) (max_tokens : Z) :
  exists evs tail,
    send_message_stream (map models.Message_dump msgs) model system max_tokens None
    = map Yield evs ++ tail /\
    (tail = [] \/ tail = [ProcessWait]) /\
    Forall (event_type_in stream_event_types) evs /\
    stream_response
      (send_message_stream (map models.Message_dump msgs) model system max_tokens None)
    = map (fun ev => Yield (PStr ("event: " +:+ event_type ev +:+ nl
                                  +:+ "data: " +:+ json_dumps ev +:+ nl +:+ nl))) evs
      ++ tail.
Proof.
  destruct (dumped_messages_format_ok msgs system) as [prompt Hfmt].
  assert (Hgoal : exists evs tail,
    send_message_stream (map models.Message_dump msgs) model system max_tokens None
    = map Yield evs ++ tail /\
    (tail = [] \/ tail = [ProcessWait]) /\
    Forall (event_type_in stream_event_types) evs).
  { destruct (create_subprocess_exec (stream_command prompt model None))
      as [p|e] eqn:Hspawn.
    - destruct (send_message_stream_shape _ model _ max_tokens _ _ _ Hfmt Hspawn)
        as (deltas & _ & E).
      destruct (snd (gfor_each stream_line (stdout_lines p) ("", PInt 0))) as [acc|e].
      + eexists _, [ProcessWait]. split; [exact E|]. split; [auto|].
        apply Forall_app. split; [repeat constructor; event_typed|].
        apply Forall_app. split; [apply deltas_typed|repeat constructor; event_typed].
      + eexists _, []. split; [rewrite app_nil_r; exact E|]. split; [auto|].
        apply Forall_app. split; [repeat constructor; event_typed|].
        apply Forall_app. split; [apply deltas_typed|repeat constructor; event_typed].
    - exists [error_event match e with
                          | FileNotFoundError => "Claude Code CLI not found"
                          | _ => exn_str e
                          end], [].
      split; [|split; [auto|repeat constructor; event_typed]].
      unfold send_message_stream. rewrite Hfmt.
      unfold send_message_stream_try. rewrite Hspawn.
      destruct e; reflexivity. }
  destruct Hgoal as (evs & tail & E & Htail & Htyped).
  exists evs, tail. repeat split; try assumption.
  rewrite E. exact (stream_response_yields _ evs tail Htyped Htail).
Qed.

(** ** Models and token counts *)

(** With a key, [get_model] either returns a model or raises 404 naming
    the id it was asked for. A model it returns carries that id, and the id
    is a key of the bridge's mapping table: the bridge maps every model the
    server answers for by the table, never by the default. *)
Theorem get_model_known_to_mapper (model_id : string) (x_api_key : option string) :
  validate_api_key x_api_key = true ->
  match get_model model_id x_api_key with
  | Respond (JSONResponse (PDict m)) =>
      dict_get "id" m = Some (PStr model_id) /\
      MODEL_MAPPING !! model_id = Some (_map_model model_id)
  | HTTPException status_code detail =>
      status_code = 404 /\
      detail = PStr ("Model " +:+ model_id +:+ " not found")
  | _ => False
  end.
Proof.
  intros Hkey. unfold get_model. rewrite Hkey. cbn [negb].
  unfold AVAILABLE_MODELS. cbn [map find_model].
  repeat match goal with
  | |- context [eq_str (dict_get_default (models.ModelInfo ?id ?name ?t) "id" PNone) model_id] =>
      change (eq_str (dict_get_default (models.ModelInfo id name t) "id" PNone) model_id)
        with (String.eqb id model_id);
      let E := fresh "E" in
      destruct (String.eqb id model_id) eqn:E;
      [apply String.eqb_eq in E; subst model_id; split; [reflexivity|vm_compute; reflexivity]|]
  end.
  split; reflexivity.
Qed.

Lemma fold_add_shift (l : list Z) (a : Z) :
  fold_left Z.add l a = a + py_sum l.
Proof.
  unfold py_sum. revert a.
  induction l as [|x l IH]; intros a; cbn [fold_left]; [lia|].
  rewrite (IH (a + x)), (IH (0 + x)). lia.
Qed.

Lemma py_sum_cons (x : Z) (l : list Z) : py_sum (x :: l) = x + py_sum l.
Proof. unfold py_sum at 1. cbn [fold_left]. rewrite fold_add_shift. lia. Qed.

Lemma py_sum_app (l1 l2 : list Z) : py_sum (l1 ++ l2) = py_sum l1 + py_sum l2.
Proof.
  unfold py_sum at 1. rewrite fold_left_app, fold_add_shift.
  unfold py_sum at 2. reflexivity.
Qed.

Lemma fold_count_block (blocks : list models.ContentBlock) (total : Z) :
  fold_left count_block blocks total
  = total + py_sum (map count_tokens
                      (omap spec_part_text (map models.ContentBlock_dump blocks))).
Proof.
  revert total.
  induction blocks as [|b blocks IH]; intros total; [unfold py_sum; simpl; lia|].
  cbn [fold_left map]. rewrite IH.
  destruct b as [text|source|s]; cbn [count_block models.ContentBlock_dump].
  - change (omap spec_part_text
              (PDict [("type", PStr "text"); ("text", PStr text)]
               :: map models.ContentBlock_dump blocks))
      with (text :: omap spec_part_text (map models.ContentBlock_dump blocks)).
    cbn [map]. rewrite py_sum_cons. lia.
  - change (omap spec_part_text
              (PDict [("type", PStr "image"); ("source", PDict source)]
               :: map models.ContentBlock_dump blocks))
      with (omap spec_part_text (map models.ContentBlock_dump blocks)).
    reflexivity.
  - change (omap spec_part_text (PStr s :: map models.ContentBlock_dump blocks))
      with (s :: omap spec_part_text (map models.ContentBlock_dump blocks)).
    cbn [map]. rewrite py_sum_cons. lia.
Qed.

(** With a key, the token count of a request is the count of the preamble,
    when it is not empty, plus the counts of the texts of the messages
    taken one by one: a string content, the strings and the text blocks of
    a list content. Image blocks, roles and the layout of the prompt add
    nothing. *)
Theorem count_message_tokens_sum (request : models.CountTokensRequest)
    (x_api_key : option string) :
  validate_api_key x_api_key = true ->
  count_message_tokens request x_api_key
  = Respond (JSONResponse (models.CountTokensResponse
      (match effective_system (models.count_system request) with
       | Some s => count_tokens s
       | None => 0
       end
       + py_sum (map count_tokens
                   (concat (map counted_texts (models.count_messages request))))))).
Proof.
  intros Hkey. unfold count_message_tokens. rewrite Hkey. cbn [negb]. cbv zeta.
  do 3 f_equal.
  assert (Hloop : forall msgs total,
            fold_left count_message msgs total
            = total + py_sum (map count_tokens (concat (map counted_texts msgs)))).
  { induction msgs as [|m msgs IH]; intros total; [unfold py_sum; simpl; lia|].
    cbn [fold_left map concat]. rewrite IH, map_app, py_sum_app.
    unfold count_message, counted_texts.
    destruct (models.content m) as [s|blocks].
    - cbn [map]. rewrite py_sum_cons. change (py_sum []) with 0. lia.
    - rewrite fold_count_block. lia. }
  rewrite Hloop. f_equal. unfold effective_system.
  destruct (models.count_system request) as [s|]; [|reflexivity].
  destruct (String.eqb s ""); reflexivity.
Qed.

End ServerProperties.

(** ** The server on concrete requests *)

Example py_split_example :
  py_split (" four  five" +:+ nl +:+ "six ") = ["four"; "five"; "six"].
Proof. reflexivity. Qed.

Example create_message_completion :
  @create_message (example_runtime (Ok completion_process)) example_server_runtime
    (hi_request false) (Some "key") "0123456789abcdef0123456789abcdef"
  = Respond (JSONResponse
      (models.MessagesResponse "msg_0123456789abcdef01234567" "hi"
         "claude-3-opus-20240229" 1 1)).
Proof. vm_compute. reflexivity. Qed.

Example create_message_boom :
  @create_message (example_runtime (Ok boom_process)) example_server_runtime
    (hi_request false) (Some "key") "0123456789abcdef0123456789abcdef"
  = HTTPException 500 (PStr "boom").
Proof. vm_compute. reflexivity. Qed.

Lemma create_message_cli_missing_witness :
  @create_message (example_runtime no_process) example_server_runtime
    (hi_request false) (Some "key") "0123456789abcdef0123456789abcdef"
  = HTTPException 500 (PStr "Claude Code CLI not found. Please install it first.") /\
  http_exception_handler 500
    (PStr "Claude Code CLI not found. Please install it first.")
  = (500, PDict [("type", PStr "error");
                 ("error",
                  PDict [("type", PStr "api_error");
                         ("message",
                          PStr "Claude Code CLI not found. Please install it first.")])]) /\
  @create_message (example_runtime no_process) example_server_runtime
    (hi_request false) None "0123456789abcdef0123456789abcdef"
  = HTTPException 401 (PStr "Invalid API key") /\
  http_exception_handler 401 (PStr "Invalid API key")
  = (401, PDict [("type", PStr "error");
                 ("error",
                  PDict [("type", PStr "invalid_request_error");
                         ("message", PStr "Invalid API key")])]).
Proof.
  apply (@create_message_cli_missing (example_runtime no_process)
           example_server_runtime (hi_request false) (Some "key")
           "0123456789abcdef0123456789abcdef").
  - reflexivity.
  - reflexivity.
  - intros cmd _. reflexivity.
Defined.

Lemma get_model_known_to_mapper_witness :
  match @get_model example_server_runtime "claude-3-opus-20240229" (Some "key") with
  | Respond (JSONResponse (PDict m)) =>
      dict_get "id" m = Some (PStr "claude-3-opus-20240229") /\
      MODEL_MAPPING !! "claude-3-opus-20240229"
      = Some (_map_model "claude-3-opus-20240229")
  | HTTPException status_code detail =>
      status_code = 404 /\
      detail = PStr ("Model " +:+ "claude-3-opus-20240229" +:+ " not found")
  | _ => False
  end.
Proof.
  apply (@get_model_known_to_mapper example_server_runtime
           "claude-3-opus-20240229" (Some "key")).
  reflexivity.
Defined.

Example get_model_unknown :
  @get_model example_server_runtime "opus" (Some "key")
  = HTTPException 404 (PStr "Model opus not found").
Proof. vm_compute. reflexivity. Qed.

Lemma count_message_tokens_sum_witness :
  @count_message_tokens example_server_runtime mixed_count_request (Some "key")
  = Respond (JSONResponse (models.CountTokensResponse (2 + py_sum [2; 1; 3]))).
Proof.
  apply (@count_message_tokens_sum example_server_runtime
           mixed_count_request (Some "key")).
  reflexivity.
Defined.

(** * Properties of the stores *)

(** ** Dicts as association lists *)

Lemma store_get_set_eq {V : Type} (key : string) (v : V) (d : list (string * V)) :
  store_get key (store_set key v d) = Some v.
Proof.
  induction d as [|[k w] d IH]; cbn [store_set store_get].
  - rewrite String.eqb_refl. reflexivity.
  - destruct (String.eqb k key) eqn:E; cbn [store_get]; rewrite E; [reflexivity|exact IH].
Qed.

Lemma store_get_set_ne {V : Type} (key key' : string) (v : V) (d : list (string * V)) :
  key <> key' -> store_get key' (store_set key v d) = store_get key' d.
Proof.
  intros Hne. induction d as [|[k w] d IH]; cbn [store_set store_get].
  - apply String.eqb_neq in Hne. rewrite Hne. reflexivity.
  - destruct (String.eqb k key) eqn:E; cbn [store_get].
    + apply String.eqb_eq in E. subst k.
      apply String.eqb_neq in Hne. rewrite Hne. reflexivity.
    + rewrite IH. reflexivity.
Qed.

Lemma store_get_del_eq {V : Type} (key : string) (d : list (string * V)) :
  store_get key (store_del key d) = None.
Proof.
  induction d as [|[k w] d IH]; cbn [store_del store_get]; [reflexivity|].
  destruct (String.eqb k key) eqn:E; cbn [store_get]; [exact IH|].
  rewrite E. exact IH.
Qed.

Lemma store_get_del_ne {V : Type} (key key' : string) (d : list (string * V)) :
  key <> key' -> store_get key' (store_del key d) = store_get key' d.
Proof.
  intros Hne. induction d as [|[k w] d IH]; cbn [store_del store_get]; [reflexivity|].
  destruct (String.eqb k key) eqn:E; cbn [store_get].
  - apply String.eqb_eq in E. subst k.
    apply String.eqb_neq in Hne. rewrite Hne. exact IH.
  - rewrite IH. reflexivity.
Qed.

Lemma store_get_without_key {V : Type} (key : string) (keys : list string)
    (d : list (string * V)) :
  existsb (String.eqb key) keys = true ->
  store_get key (without_keys keys d) = None.
Proof.
  intros Hin. unfold without_keys.
  induction d as [|[k w] d IH]; cbn [List.filter store_get fst]; [reflexivity|].
  destruct (existsb (String.eqb k) keys) eqn:Ek; cbn [negb]; [exact IH|].
  cbn [store_get]. destruct (String.eqb k key) eqn:E; [|exact IH].
  apply String.eqb_eq in E. subst k. congruence.
Qed.

(** ** Files *)

(** The body of a file never leaves the server: no response of [get_file]
    or of [list_files] has a content key, whatever the store holds. *)
Theorem file_content_is_never_returned (file_id : string)
    (x_api_key : option string) (files : list (string * filedict)) :
  match get_file file_id x_api_key files with
  | Respond (FileJSON body) => store_get "content" body = None
  | Respond (FileList _) => False
  | HTTPException status_code _ => status_code = 401 \/ status_code = 404
  | Unhandled _ => False
  end /\
  match list_files x_api_key files with
  | Respond (FileList data) =>
      List.length data = List.length files /\
      Forall (fun body => store_get "content" body = None) data
  | Respond (FileJSON _) => False
  | HTTPException status_code _ => status_code = 401
  | Unhandled _ => False
  end.
Proof.
  unfold get_file, list_files.
  destruct (validate_api_key x_api_key); cbn [negb]; [|auto].
  split.
  - destruct (store_get file_id files); [|auto].
    apply store_get_without_key. reflexivity.
  - split; [apply length_map|].
    apply Forall_forall. intros body Hbody.
    apply list_elem_of_fmap in Hbody as (f & -> & _).
    apply store_get_without_key. reflexivity.
Qed.

(** An upload can be read back: with a key, [get_file] on the id of the
    upload returns what [upload_file] returned, the six fields of the file
    with the length of the body as bytes; every other id reads as
    before. *)
Theorem upload_then_get (body : list byte) (x_api_key : option string)
    (uuid_hex : string) (timestamp : Z) (files : list (string * filedict)) :
  validate_api_key x_api_key = true ->
  let file_id := "file_" +:+ slice_to 24 uuid_hex in
  let info := [("id", FVal (PStr file_id));
               ("object", FVal (PStr "file"));
               ("bytes", FVal (PInt (Z.of_nat (List.length body))));
               ("created_at", FVal (PInt timestamp));
               ("filename", FVal (PStr "uploaded_file"));
               ("purpose", FVal (PStr "assistants"))] in
  let files' := snd (upload_file body x_api_key uuid_hex timestamp files) in
  fst (upload_file body x_api_key uuid_hex timestamp files) = Respond (FileJSON info) /\
  get_file file_id x_api_key files' = Respond (FileJSON info) /\
  forall other key, other <> file_id ->
    get_file other key files' = get_file other key files.
Proof.
  intros Hkey. cbv zeta. unfold upload_file. rewrite Hkey. cbn [negb fst snd].
  split; [reflexivity|]. split.
  - unfold get_file. rewrite Hkey. cbn [negb]. rewrite store_get_set_eq. reflexivity.
  - intros other key Hne. unfold get_file.
    rewrite store_get_set_ne; [reflexivity|congruence].
Qed.

(** A deleted file is gone and the others stay: with a key, deleting a
    file that is there answers with its id, after which [get_file] raises
    404 for it and reads every other id as before; deleting an id that is
    not there raises 404 and leaves the store as it was. *)
Theorem delete_then_get (file_id : string) (x_api_key : option string)
    (files : list (string * filedict)) :
  validate_api_key x_api_key = true ->
  let files' := snd (delete_file file_id x_api_key files) in
  match store_get file_id files with
  | Some _ =>
      fst (delete_file file_id x_api_key files)
      = Respond (FileJSON [("id", FVal (PStr file_id));
                           ("object", FVal (PStr "file"));
                           ("deleted", FVal (PBool true))])
  | None =>
      fst (delete_file file_id x_api_key files)
      = HTTPException 404 (file_not_found file_id) /\
      files' = files
  end /\
  get_file file_id x_api_key files' = HTTPException 404 (file_not_found file_id) /\
  forall other key, other <> file_id ->
    get_file other key files' = get_file other key files.
Proof.
  intros Hkey. cbv zeta. unfold delete_file. rewrite Hkey. cbn [negb].
  destruct (store_get file_id files) as [f|] eqn:E; cbn [fst snd].
  - split; [reflexivity|]. split.
    + unfold get_file. rewrite Hkey. cbn [negb]. rewrite store_get_del_eq. reflexivity.
    + intros other key Hne. unfold get_file.
      rewrite store_get_del_ne; [reflexivity|congruence].
  - split; [auto|]. split; [|reflexivity].
    unfold get_file. rewrite Hkey. cbn [negb]. rewrite E. reflexivity.
Qed.

(** ** Batches *)

Lemma batch_info_shape (batch_id status : string) (processing : Z)
    (created_at expires_at : string) (requests : list pyval) :
  status = "in_progress" \/ status = "canceling" ->
  batch_info (batch_shape batch_id status processing created_at expires_at requests)
  = Ok (PDict (batch_shape_info batch_id status processing created_at expires_at)).
Proof. intros [-> | ->]; reflexivity. Qed.

(** Every batch of a reachable store is as [create_batch] built it, under
    its own id, in progress or canceling. *)
Lemma reachable_batches_shape (batches : list (string * pydict)) :
  reachable_batches batches ->
  forall batch_id batch,
    store_get batch_id batches = Some batch ->
    exists status processing created_at expires_at requests,
      batch = batch_shape batch_id status processing created_at expires_at requests /\
      (status = "in_progress" \/ status = "canceling").
Proof.
  induction 1 as [| request key uuid_hex created_at expires_at batches _ IH
                  | cancelled key batches _ IH];
    intros batch_id batch Hget.
  - discriminate.
  - unfold create_batch in Hget.
    destruct (validate_api_key key); cbn [negb snd] in Hget; [|eauto].
    destruct (String.eqb ("batch_" +:+ slice_to 24 uuid_hex) batch_id) eqn:E.
    + apply String.eqb_eq in E. subst batch_id.
      rewrite store_get_set_eq in Hget. injection Hget as <-.
      eexists "in_progress", _, _, _, _. split; [reflexivity|auto].
    + apply String.eqb_neq in E. rewrite (store_get_set_ne _ _ _ _ E) in Hget. eauto.
  - unfold cancel_batch in Hget.
    destruct (validate_api_key key); cbn [negb snd] in Hget; [|eauto].
    destruct (store_get cancelled batches) as [b|] eqn:Eb; cbn [snd] in Hget; [|eauto].
    destruct (String.eqb cancelled batch_id) eqn:E.
    + apply String.eqb_eq in E. subst batch_id.
      rewrite store_get_set_eq in Hget. injection Hget as <-.
      destruct (IH _ _ Eb) as (st & n & c & e & rs & -> & _).
      eexists "canceling", _, _, _, _. split; [reflexivity|auto].
    + apply String.eqb_neq in E. rewrite (store_get_set_ne _ _ _ _ E) in Hget. eauto.
Qed.

(** Batches are stored and never run. In any store the server can reach,
    with a key, the results of a batch that is there are the empty list,
    and [get_batch] shows it under its id as in progress or canceling,
    with no end date and no results URL; an id that is not there gives 404;
    building the response never fails. *)
Theorem batches_are_never_processed (batches : list (string * pydict))
    (batch_id : string) (x_api_key : option string) :
  reachable_batches batches ->
  validate_api_key x_api_key = true ->
  match get_batch_results batch_id x_api_key batches with
  | Respond (JSONResponse body) =>
      body = PDict [("batch_id", PStr batch_id); ("results", PList [])]
  | HTTPException status_code detail =>
      status_code = 404 /\ detail = batch_not_found batch_id /\
      store_get batch_id batches = None
  | _ => False
  end /\
  match get_batch batch_id x_api_key batches with
  | Respond (JSONResponse (PDict info)) =>
      dict_get "id" info = Some (PStr batch_id) /\
      (dict_get "processing_status" info = Some (PStr "in_progress") \/
       dict_get "processing_status" info = Some (PStr "canceling")) /\
      dict_get "ended_at" info = Some PNone /\
      dict_get "results_url" info = Some PNone
  | HTTPException status_code detail =>
      status_code = 404 /\ detail = batch_not_found batch_id
  | _ => False
  end.
Proof.
  intros Hreach Hkey. unfold get_batch_results, get_batch.
  rewrite Hkey. cbn [negb].
  destruct (store_get batch_id batches) as [batch|] eqn:E; [|auto].
  destruct (reachable_batches_shape _ Hreach _ _ E)
    as (st & n & c & e & rs & -> & Hst).
  split; [reflexivity|].
  rewrite (batch_info_shape _ _ _ _ _ _ Hst). cbn [respond_model].
  split; [reflexivity|]. split; [|split; reflexivity].
  destruct Hst as [-> | ->]; [left|right]; reflexivity.
Qed.

(** A batch can be read back: with a key, [create_batch] answers with the
    batch in progress, counting every request of the batch as processing;
    [get_batch] on its id then gives the same answer, and every other id
    reads as before. *)
Theorem create_then_get (request : models.CreateBatchRequest)
    (x_api_key : option string) (uuid_hex created_at expires_at : string)
    (batches : list (string * pydict)) :
  validate_api_key x_api_key = true ->
  let batch_id := "batch_" +:+ slice_to 24 uuid_hex in
  let info := PDict (batch_shape_info batch_id "in_progress"
                       (Z.of_nat (List.length (models.requests request)))
                       created_at expires_at) in
  let batches' :=
    snd (create_batch request x_api_key uuid_hex created_at expires_at batches) in
  fst (create_batch request x_api_key uuid_hex created_at expires_at batches)
  = Respond (JSONResponse info) /\
  get_batch batch_id x_api_key batches' = Respond (JSONResponse info) /\
  forall other key, other <> batch_id ->
    get_batch other key batches' = get_batch other key batches.
Proof.
  intros Hkey. cbv zeta. unfold create_batch. rewrite Hkey. cbn [negb fst snd].
  split; [reflexivity|]. split.
  - unfold get_batch. rewrite Hkey. cbn [negb]. rewrite store_get_set_eq. reflexivity.
  - intros other key Hne. unfold get_batch.
    rewrite store_get_set_ne; [reflexivity|congruence].
Qed.

(** Cancelling, in a store the server can reach and with a key: the answer
    is what [get_batch] gave before with the status set to canceling;
    [get_batch] gives this answer from then on, every other id reads as
    before, and cancelling again changes nothing. An id that is not there
    gives 404 and the store stays as it was. *)
Theorem cancel_then_get (batches : list (string * pydict)) (batch_id : string)
    (x_api_key : option string) :
  reachable_batches batches ->
  validate_api_key x_api_key = true ->
  let batches' := snd (cancel_batch batch_id x_api_key batches) in
  match get_batch batch_id x_api_key batches with
  | Respond (JSONResponse (PDict before)) =>
      fst (cancel_batch batch_id x_api_key batches)
      = Respond (JSONResponse
                   (PDict (store_set "processing_status" (PStr "canceling") before))) /\
      get_batch batch_id x_api_key batches'
      = fst (cancel_batch batch_id x_api_key batches) /\
      snd (cancel_batch batch_id x_api_key batches') = batches'
  | HTTPException status_code detail =>
      fst (cancel_batch batch_id x_api_key batches)
      = HTTPException 404 (batch_not_found batch_id) /\
      batches' = batches
  | _ => False
  end /\
  forall other key, other <> batch_id ->
    get_batch other key batches' = get_batch other key batches.
Proof.
  intros Hreach Hkey. cbv zeta. unfold cancel_batch, get_batch at 1.
  rewrite Hkey. cbn [negb].
  destruct (store_get batch_id batches) as [batch|] eqn:E; cbn [fst snd].
  - destruct (reachable_batches_shape _ Hreach _ _ E)
      as (st & n & c & e & rs & -> & Hst).
    rewrite (batch_info_shape _ _ _ _ _ _ Hst). cbn [respond_model].
    change (store_set "processing_status" (PStr "canceling")
              (batch_shape batch_id st n c e rs))
      with (batch_shape batch_id "canceling" n c e rs).
    rewrite (batch_info_shape batch_id "canceling" n c e rs (or_intror eq_refl)).
    cbn [respond_model].
    split; [split; [reflexivity|split]|].
    + unfold get_batch. rewrite Hkey. cbn [negb]. rewrite store_get_set_eq.
      rewrite (batch_info_shape batch_id "canceling" n c e rs (or_intror eq_refl)).
      reflexivity.
    + rewrite store_get_set_eq. cbn [snd].
      change (store_set "processing_status" (PStr "canceling")
                (batch_shape batch_id "canceling" n c e rs))
        with (batch_shape batch_id "canceling" n c e rs).
      clear. induction batches as [|[k w] batches IH]; cbn [store_set].
      * rewrite String.eqb_refl. reflexivity.
      * destruct (String.eqb k batch_id) eqn:Ek; cbn [store_set]; rewrite Ek;
          [reflexivity|rewrite IH; reflexivity].
    + intros other key Hne. unfold get_batch.
      rewrite store_get_set_ne; [reflexivity|congruence].
  - split; [auto|]. intros other key Hne. reflexivity.
Qed.

Lemma store_set_Forall {V : Type} (P : string * V -> Prop) (key : string) (v : V)
    (d : list (string * V)) :
  Forall P d -> P (key, v) -> Forall P (store_set key v d).
Proof.
  intros Hd Hv. induction Hd as [|[k w] d Hkw Hd IH]; cbn [store_set].
  - repeat constructor. exact Hv.
  - destruct (String.eqb k key) eqn:E.
    + apply String.eqb_eq in E. subst k. constructor; assumption.
    + constructor; assumption.
Qed.

Lemma store_get_Forall {V : Type} (P : string * V -> Prop) (key : string) (v : V)
    (d : list (string * V)) :
  Forall P d -> store_get key d = Some v -> P (key, v).
Proof.
  intros Hd. induction Hd as [|[k w] d Hkw _ IH]; cbn [store_get]; [discriminate|].
  destruct (String.eqb k key) eqn:E; [|exact IH].
  apply String.eqb_eq in E. subst k. intros [= <-]. exact Hkw.
Qed.

(** The same, entry by entry. *)
Lemma reachable_batches_entries (batches : list (string * pydict)) :
  reachable_batches batches ->
  Forall (fun entry =>
            exists status processing created_at expires_at requests,
              snd entry = batch_shape (fst entry) status processing
                            created_at expires_at requests /\
              (status = "in_progress" \/ status = "canceling"))
    batches.
Proof.
  induction 1 as [| request key uuid_hex created_at expires_at batches _ IH
                  | cancelled key batches _ IH].
  - constructor.
  - unfold create_batch. destruct (validate_api_key key); cbn [negb snd]; [|exact IH].
    apply store_set_Forall; [exact IH|].
    eexists "in_progress", _, _, _, _. split; [reflexivity|auto].
  - unfold cancel_batch. destruct (validate_api_key key); cbn [negb snd]; [|exact IH].
    destruct (store_get cancelled batches) as [b|] eqn:Eb; cbn [snd]; [|exact IH].
    apply store_set_Forall; [exact IH|].
    destruct (store_get_Forall _ _ _ _ IH Eb) as (st & n & c & e & rs & Hb & _).
    cbn [fst snd] in Hb. subst b.
    eexists "canceling", _, _, _, _. split; [reflexivity|auto].
Qed.

Lemma slice_upto_map {A B : Type} (f : A -> B) (limit : Z) (l : list A) :
  slice_upto limit (map f l) = map f (slice_upto limit l).
Proof.
  unfold slice_upto. rewrite length_map.
  destruct (0 <=? limit); symmetry; apply fmap_take.
Qed.

(** In any store the server can reach, with a key, [list_batches] never
    fails and lists the batches in the order in which they were created:
    the ids it shows are the first [limit] keys of the store. The limit is
    not checked: a negative one leaves out that many batches at the end
    instead. *)
Theorem list_batches_in_order (batches : list (string * pydict))
    (x_api_key : option string) (limit : Z) :
  reachable_batches batches ->
  validate_api_key x_api_key = true ->
  exists infos,
    list_batches x_api_key limit batches
    = Respond (JSONResponse
                 (PDict [("object", PStr "list"); ("data", PList (map PDict infos))])) /\
    map (dict_get "id") infos
    = map (fun key => Some (PStr key)) (slice_upto limit (map fst batches)).
Proof.
  intros Hreach Hkey. unfold list_batches. rewrite Hkey. cbn [negb].
  rewrite !slice_upto_map.
  assert (Hslice : Forall (fun entry =>
            exists status processing created_at expires_at requests,
              snd entry = batch_shape (fst entry) status processing
                            created_at expires_at requests /\
              (status = "in_progress" \/ status = "canceling"))
            (slice_upto limit batches)).
  { unfold slice_upto. destruct (0 <=? limit);
      apply Forall_take, reachable_batches_entries, Hreach. }
  induction Hslice as [|[k b] l (st & n & c & e & rs & Hb & Hst) _ IH].
  - exists []. split; reflexivity.
  - destruct IH as (infos & E & Hids). cbn [fst snd] in Hb. subst b.
    exists (batch_shape_info k st n c e :: infos).
    cbn [map batch_infos snd fst].
    rewrite (batch_info_shape _ _ _ _ _ _ Hst). cbn [bind].
    destruct (batch_infos (map snd l)) as [infos'|err]; [|discriminate].
    cbn [bind respond_model] in *. injection E as E.
    split; [rewrite E; reflexivity|].
    rewrite Hids. reflexivity.
Qed.

(** ** Without a key *)

(** Without a key, or with the empty key, no endpoint of the stores does
    anything: each raises 401, and the ones that write leave the store as
    it was. *)
Theorem no_key_no_effect (x_api_key : option string)
    (batches : list (string * pydict)) (files : list (string * filedict))
    (request : models.CreateBatchRequest) (uuid_hex created_at expires_at id : string)
    (limit timestamp : Z) (body : list byte) :
  validate_api_key x_api_key = false ->
  let denied {A : Type} : http_result A := HTTPException 401 (PStr "Invalid API key") in
  create_batch request x_api_key uuid_hex created_at expires_at batches
  = (denied, batches) /\
  cancel_batch id x_api_key batches = (denied, batches) /\
  get_batch id x_api_key batches = denied /\
  get_batch_results id x_api_key batches = denied /\
  list_batches x_api_key limit batches = denied /\
  upload_file body x_api_key uuid_hex timestamp files = (denied, files) /\
  delete_file id x_api_key files = (denied, files) /\
  get_file id x_api_key files = denied /\
  list_files x_api_key files = denied.
Proof.
  intros Hkey. cbv zeta.
  unfold create_batch, cancel_batch, get_batch, get_batch_results, list_batches,
    upload_file, delete_file, get_file, list_files.
  rewrite Hkey. cbn [negb]. repeat split.
Qed.

(** ** The stores on concrete requests *)

Lemma two_batches_reachable : reachable_batches two_batches.
Proof. unfold two_batches. do 2 apply reachable_create. apply reachable_start. Qed.

Example list_batches_negative_limit :
  list_batches (Some "key") (-1) two_batches
  = Respond (JSONResponse
      (PDict [("object", PStr "list");
              ("data",
               PList [PDict (batch_shape_info "batch_0123456789abcdef01234567"
                               "in_progress" 2
                               "2025-01-01T00:00:00" "2025-01-02T00:00:00")])])).
Proof. vm_compute. reflexivity. Qed.

Lemma list_batches_in_order_witness :
  exists infos,
    list_batches (Some "key") 20 two_batches
    = Respond (JSONResponse
                 (PDict [("object", PStr "list"); ("data", PList (map PDict infos))])) /\
    map (dict_get "id") infos
    = map (fun key => Some (PStr key)) (slice_upto 20 (map fst two_batches)).
Proof.
  apply (list_batches_in_order two_batches (Some "key") 20).
  - exact two_batches_reachable.
  - reflexivity.
Defined.

Lemma batches_are_never_processed_witness :
  match get_batch_results "batch_0123456789abcdef01234567" (Some "key") two_batches with
  | Respond (JSONResponse body) =>
      body = PDict [("batch_id", PStr "batch_0123456789abcdef01234567");
                    ("results", PList [])]
  | HTTPException status_code detail =>
      status_code = 404 /\
      detail = batch_not_found "batch_0123456789abcdef01234567" /\
      store_get "batch_0123456789abcdef01234567" two_batches = None
  | _ => False
  end /\
  match get_batch "batch_0123456789abcdef01234567" (Some "key") two_batches with
  | Respond (JSONResponse (PDict info)) =>
      dict_get "id" info = Some (PStr "batch_0123456789abcdef01234567") /\
      (dict_get "processing_status" info = Some (PStr "in_progress") \/
       dict_get "processing_status" info = Some (PStr "canceling")) /\
      dict_get "ended_at" info = Some PNone /\
      dict_get "results_url" info = Some PNone
  | HTTPException status_code detail =>
      status_code = 404 /\
      detail = batch_not_found "batch_0123456789abcdef01234567"
  | _ => False
  end.
Proof.
  apply (batches_are_never_processed two_batches
           "batch_0123456789abcdef01234567" (Some "key")).
  - exact two_batches_reachable.
  - reflexivity.
Defined.

Lemma create_then_get_witness :
  fst (create_batch two_requests (Some "key") first_uuid
         "2025-01-01T00:00:00" "2025-01-02T00:00:00" [])
  = Respond (JSONResponse
      (PDict (batch_shape_info "batch_0123456789abcdef01234567" "in_progress" 2
                "2025-01-01T00:00:00" "2025-01-02T00:00:00"))) /\
  get_batch "batch_0123456789abcdef01234567" (Some "key")
    (snd (create_batch two_requests (Some "key") first_uuid
            "2025-01-01T00:00:00" "2025-01-02T00:00:00" []))
  = Respond (JSONResponse
      (PDict (batch_shape_info "batch_0123456789abcdef01234567" "in_progress" 2
                "2025-01-01T00:00:00" "2025-01-02T00:00:00"))) /\
  forall other key, other <> "batch_0123456789abcdef01234567" ->
    get_batch other key
      (snd (create_batch two_requests (Some "key") first_uuid
              "2025-01-01T00:00:00" "2025-01-02T00:00:00" []))
    = get_batch other key [].
Proof.
  apply (create_then_get two_requests (Some "key") first_uuid
           "2025-01-01T00:00:00" "2025-01-02T00:00:00" []).
  reflexivity.
Defined.

Lemma cancel_then_get_witness :
  fst (cancel_batch "batch_0123456789abcdef01234567" (Some "key") two_batches)
  = Respond (JSONResponse
      (PDict (batch_shape_info "batch_0123456789abcdef01234567" "canceling" 2
                "2025-01-01T00:00:00" "2025-01-02T00:00:00"))) /\
  get_batch "batch_0123456789abcdef01234567" (Some "key")
    (snd (cancel_batch "batch_0123456789abcdef01234567" (Some "key") two_batches))
  = fst (cancel_batch "batch_0123456789abcdef01234567" (Some "key") two_batches).
Proof.
  pose proof (cancel_then_get two_batches "batch_0123456789abcdef01234567"
                (Some "key") two_batches_reachable eq_refl) as H.
  cbv zeta in H. destruct H as [H _].
  change (get_batch "batch_0123456789abcdef01234567" (Some "key") two_batches)
    with (Respond (JSONResponse
            (PDict (batch_shape_info "batch_0123456789abcdef01234567" "in_progress" 2
                      "2025-01-01T00:00:00" "2025-01-02T00:00:00")))) in H.
  cbv iota in H. destruct H as (H1 & H2 & _).
  split; [exact H1|exact H2].
Defined.

Lemma upload_then_get_witness :
  get_file "file_0123456789abcdef01234567" (Some "key") one_file
  = Respond (FileJSON [("id", FVal (PStr "file_0123456789abcdef01234567"));
                       ("object", FVal (PStr "file"));
                       ("bytes", FVal (PInt 5));
                       ("created_at", FVal (PInt 1700000000));
                       ("filename", FVal (PStr "uploaded_file"));
                       ("purpose", FVal (PStr "assistants"))]).
Proof.
  exact (proj1 (proj2 (upload_then_get (list_byte_of_string "hello") (Some "key")
                         first_uuid 1700000000 [] eq_refl))).
Defined.

Lemma delete_then_get_witness :
  get_file "file_0123456789abcdef01234567" (Some "key")
    (snd (delete_file "file_0123456789abcdef01234567" (Some "key") one_file))
  = HTTPException 404 (file_not_found "file_0123456789abcdef01234567").
Proof.
  exact (proj1 (proj2 (delete_then_get "file_0123456789abcdef01234567" (Some "key")
                         one_file eq_refl))).
Defined.

Example delete_unknown_file :
  delete_file "file_none" (Some "key") one_file
  = (HTTPException 404 (PStr "File file_none not found"), one_file).
Proof. vm_compute. reflexivity. Qed.

Example endpoints_without_key :
  get_file "file_0123456789abcdef01234567" None one_file
  = HTTPException 401 (PStr "Invalid API key") /\
  snd (delete_file "file_0123456789abcdef01234567" (Some "") one_file) = one_file /\
  snd (cancel_batch "batch_0123456789abcdef01234567" None two_batches) = two_batches.
Proof. repeat split. Qed.

Lemma no_key_no_effect_witness :
  cancel_batch "batch_0123456789abcdef01234567" (Some "") two_batches
  = (HTTPException 401 (PStr "Invalid API key"), two_batches) /\
  upload_file (list_byte_of_string "x") None second_uuid 0 one_file
  = (HTTPException 401 (PStr "Invalid API key"), one_file).
Proof.
  pose proof (no_key_no_effect (Some "") two_batches one_file two_requests
                second_uuid "" "" "batch_0123456789abcdef01234567" 20 0
                (list_byte_of_string "x") eq_refl) as H.
  pose proof (no_key_no_effect None two_batches one_file two_requests
                second_uuid "" "" "batch_0123456789abcdef01234567" 20 0
                (list_byte_of_string "x") eq_refl) as H'.
  cbv zeta in H, H'.
  split; [exact (proj1 (proj2 H))|].
  exact (proj1 (proj2 (proj2 (proj2 (proj2 (proj2 H')))))).
Defined.
